(** * Procurement workflow: intake, supplier lookup, approval, and the graph run

    A shallow embedding of the three agents (src/agents) and of the workflow
    script (src/workflow/run_workflow.py), with the properties of the
    natural-language specification stated and settled against it.

    Conventions.
    - A Python [str] is a [string]; its characters are the ASCII ones.  Text
      with other code points is outside the model: the character classes
      below ([isspace], [isdigit], [isword], [lower_char]) treat a code of
      128 and above as an opaque character, neither space, digit nor letter.
    - A Python [int] is a [Z].  [int(...)] of a digit run is its decimal
      value; the interpreter's optional cap on the number of digits of a
      converted string is taken as switched off.
    - A Python [dict] with string keys is a [gmap string _]; the one place
      where the insertion order of a dict is observable (the comprehension
      that builds the retriever's table) takes the dict as the list of its
      items in insertion order. *)

From Stdlib Require Import ZArith Ascii String List Bool DecimalString DecimalPos.
From stdpp Require Import gmap strings list fin_maps.

Local Open Scope string_scope.
Local Open Scope Z_scope.

(** ** Python string primitives used by the agents *)

Module PyStr.

Definition code (c : ascii) : nat := nat_of_ascii c.

(** [str.isspace] on one ASCII character, which is also the class [\s] of
    the [re] module for [str] patterns: TAB, LF, VT, FF, CR, the four
    separators 0x1c..0x1f, and the blank. *)
Definition isspace (c : ascii) : bool :=
  let n := code c in
  ((9 <=? n) && (n <=? 13) || (28 <=? n) && (n <=? 32))%nat.

(** The class [\d], ASCII part. *)
Definition isdigit (c : ascii) : bool :=
  let n := code c in ((48 <=? n) && (n <=? 57))%nat.

Definition isupper (c : ascii) : bool :=
  let n := code c in ((65 <=? n) && (n <=? 90))%nat.

Definition islower (c : ascii) : bool :=
  let n := code c in ((97 <=? n) && (n <=? 122))%nat.

(** The class [\w], ASCII part: letters, digits and the underscore. *)
Definition isword (c : ascii) : bool :=
  isupper c || islower c || isdigit c || (code c =? 95)%nat.

Definition lower_char (c : ascii) : ascii :=
  if isupper c then ascii_of_nat (code c + 32) else c.

(** [str.lower] *)
Fixpoint lower (s : string) : string :=
  match s with
  | EmptyString => EmptyString
  | String c r => String (lower_char c) (lower r)
  end.

Fixpoint lstrip (s : string) : string :=
  match s with
  | EmptyString => EmptyString
  | String c r => if isspace c then lstrip r else s
  end.

Fixpoint rstrip (s : string) : string :=
  match s with
  | EmptyString => EmptyString
  | String c r =>
      match rstrip r with
      | EmptyString => if isspace c then EmptyString else String c EmptyString
      | r' => String c r'
      end
  end.

(** [str.strip] with no argument *)
Definition strip (s : string) : string := rstrip (lstrip s).

(** [s.endswith(suffix)] *)
Fixpoint endswith (s suffix : string) : bool :=
  if String.eqb s suffix then true
  else match s with
       | EmptyString => false
       | String _ r => endswith r suffix
       end.

(** [s[:-1]]: the string without its last character (empty stays empty) *)
Fixpoint drop_last (s : string) : string :=
  match s with
  | EmptyString => EmptyString
  | String _ EmptyString => EmptyString
  | String c r => String c (drop_last r)
  end.

(** The test both agents use before cutting a plural:
    [s.endswith("s") and not s.endswith("ss")]. *)
Definition plural_like (s : string) : bool :=
  endswith s "s" && negb (endswith s "ss").

Definition digit_value (c : ascii) : Z := Z.of_nat (code c - 48).

(** [int(ds)] for a run of ASCII digits, most significant first *)
Fixpoint int_of_digits (acc : Z) (ds : string) : Z :=
  match ds with
  | EmptyString => acc
  | String c r => int_of_digits (10 * acc + digit_value c) r
  end.

(** [str(n)] for an int, as an f-string field prints it *)
Definition str_of_int (n : Z) : string :=
  NilZero.string_of_int (Z.to_int n).

Definition str_of_bool (b : bool) : string :=
  if b then "True" else "False".

Definition hex_digit (n : nat) : ascii :=
  if (n <? 10)%nat then ascii_of_nat (48 + n) else ascii_of_nat (87 + n).

Fixpoint contains_char (c : ascii) (s : string) : bool :=
  match s with
  | EmptyString => false
  | String d r => Ascii.eqb c d || contains_char c r
  end.

Definition squote : ascii := ascii_of_nat 39.
Definition dquote : ascii := ascii_of_nat 34.
Definition backslash : ascii := ascii_of_nat 92.

(** The body of [repr(s)]: the quote in use and the backslash are
    escaped, TAB, LF and CR have their letter escapes, the other control
    characters are written [\xhh]. *)
Fixpoint repr_body (q : ascii) (s : string) : string :=
  match s with
  | EmptyString => EmptyString
  | String c r =>
      let rest := repr_body q r in
      let n := code c in
      if Ascii.eqb c q || Ascii.eqb c backslash then String backslash (String c rest)
      else if (n =? 9)%nat then String backslash (String "t" rest)
      else if (n =? 10)%nat then String backslash (String "n" rest)
      else if (n =? 13)%nat then String backslash (String "r" rest)
      else if (n <? 32)%nat || (n =? 127)%nat then
        String backslash
          (String "x" (String (hex_digit (n / 16)) (String (hex_digit (n mod 16)) rest)))
      else String c rest
  end.

(** [repr(s)]: single quotes, unless the text has a single quote and no
    double quote. *)
Definition repr (s : string) : string :=
  let q := if contains_char squote s && negb (contains_char dquote s)
           then dquote else squote in
  String q (repr_body q s ++ String q EmptyString).

End PyStr.

(** ** The three patterns of the intake agent

    [re.sub] and [re.search] are used with three fixed patterns.  Each is
    embedded as the scan the pattern denotes: matches are taken leftmost
    first, do not overlap, and a [+] takes the longest run. *)

Module Re.
Import PyStr.

(** [re.sub(cls+, " ", s)] for a character class [cls]: every maximal run
    of characters of the class becomes one blank.  [in_run] tells that the
    previous character belonged to the run being replaced. *)
Fixpoint sub_runs (cls : ascii -> bool) (in_run : bool) (s : string) : string :=
  match s with
  | EmptyString => EmptyString
  | String c r =>
      if cls c then
        if in_run then sub_runs cls true r
        else String " " (sub_runs cls true r)
      else String c (sub_runs cls false r)
  end.

Fixpoint take_while (cls : ascii -> bool) (s : string) : string :=
  match s with
  | EmptyString => EmptyString
  | String c r => if cls c then String c (take_while cls r) else EmptyString
  end.

Fixpoint drop_while (cls : ascii -> bool) (s : string) : string :=
  match s with
  | EmptyString => EmptyString
  | String c r => if cls c then drop_while cls r else s
  end.

(** [re.search(r"(\d+)", s)]: group 1 of the leftmost match, [None] when
    the text has no digit. *)
Definition search_digits (s : string) : option string :=
  match take_while isdigit (drop_while (fun c => negb (isdigit c)) s) with
  | EmptyString => None
  | ds => Some ds
  end.

(** The alternatives of [(order|buy|purchase|get|acquire|request)], in the
    order the pattern lists them. *)
Definition verbs : list string :=
  ["order"; "buy"; "purchase"; "get"; "acquire"; "request"].

(** [w], written in lower case, matches at the head of [s] without regard
    to case; the result is what follows the match. *)
Fixpoint prefix_ci (w s : string) : option string :=
  match w, s with
  | EmptyString, _ => Some s
  | String _ _, EmptyString => None
  | String a w', String c s' =>
      if Ascii.eqb a (lower_char c) then prefix_ci w' s' else None
  end.

(** The closing [\b] after a matched verb, whose last character is a
    letter: the text ends, or goes on with a character outside [\w]. *)
Definition boundary_after (rest : string) : bool :=
  match rest with
  | EmptyString => true
  | String c _ => negb (isword c)
  end.

(** Length of the first alternative that matches at the head of [s] and
    is followed by a word boundary. *)
Fixpoint match_verb (ws : list string) (s : string) : option nat :=
  match ws with
  | [] => None
  | w :: ws' =>
      match prefix_ci w s with
      | Some rest => if boundary_after rest then Some (String.length w)
                     else match_verb ws' s
      | None => match_verb ws' s
      end
  end.

(** [re.sub(r"\b(order|...|request)\b", " ", s, flags=re.IGNORECASE)].
    [prev_word] tells that the character before the current position is a
    [\w] character (false at the start of the text), so the opening [\b]
    holds exactly when it is false; [skip] counts the characters of a
    match that are still to be dropped. *)
Fixpoint sub_verbs_go (prev_word : bool) (skip : nat) (s : string) : string :=
  match s with
  | EmptyString => EmptyString
  | String c r =>
      match skip with
      | S k => sub_verbs_go (isword c) k r
      | O =>
          if prev_word then String c (sub_verbs_go (isword c) O r)
          else match match_verb verbs s with
               | Some n => String " " (sub_verbs_go (isword c) (Nat.pred n) r)
               | None => String c (sub_verbs_go (isword c) O r)
               end
      end
  end.

Definition sub_verbs (s : string) : string := sub_verbs_go false O s.
Definition sub_digits (s : string) : string := sub_runs isdigit false s.
Definition sub_spaces (s : string) : string := sub_runs isspace false s.

End Re.

(** ** src/agents/intake_agent.py *)

Module IntakeAgent.
Import PyStr.

(** The dataclass [IntakeResult]; [parse_request] returns the dict with
    the same three keys, in this order. *)
Record IntakeResult := {
  item : string;
  quantity : Z;
  raw_request : string
}.

Definition _extract_quantity (request : string) : Z :=
  match Re.search_digits request with
  | Some ds => int_of_digits 0 ds
  | None => 1
  end.

(** [quantity or 1]: a zero quantity counts as one. *)
Definition or_one (quantity : Z) : Z :=
  if quantity =? 0 then 1 else quantity.

Definition _extract_item (request : string) (quantity : Z) : string :=
  let cleaned := Re.sub_digits request in
  let cleaned := Re.sub_verbs cleaned in
  let cleaned := lower (strip (Re.sub_spaces cleaned)) in
  if or_one quantity =? 1 then
    if plural_like cleaned then drop_last cleaned else cleaned
  else cleaned.

Definition _parse_to_dict (request : string) : IntakeResult :=
  let quantity := _extract_quantity request in
  let item := _extract_item request quantity in
  {| item := item; quantity := quantity; raw_request := request |}.

Definition parse_request (request : string) : IntakeResult :=
  _parse_to_dict request.

(** [str(parsed)], as the f-string of [intake_node] prints the dict *)
Definition repr_parsed (p : IntakeResult) : string :=
  "{'item': " ++ repr (item p) ++ ", 'quantity': " ++ str_of_int (quantity p)
  ++ ", 'raw_request': " ++ repr (raw_request p) ++ "}".

End IntakeAgent.

(** ** src/agents/supplier_agent.py *)

Module SupplierAgent.
Import PyStr.

(** [Dict[str, str]] handed to the constructor, as its items in insertion
    order; [None] and the empty dict are both the empty list
    ([item_to_supplier or {}]). *)
Definition catalog := list (string * string).

(** [KeywordMappingRetriever._normalize] *)
Definition _normalize (text : string) : string :=
  let text := lower (strip text) in
  if plural_like text then drop_last text else text.

(** [KeywordMappingRetriever._alt_normalize] *)
Definition _alt_normalize (text : string) : string :=
  if plural_like text then drop_last text else text ++ "s".

(** [self._mapping = {self._normalize(k): v for k, v in ...items()}]:
    the items are entered in order, a later item replacing an earlier one
    whose key normalizes to the same text. *)
Definition _mapping (item_to_supplier : catalog) : gmap string string :=
  fold_left (fun m kv => <[_normalize kv.1 := kv.2]> m) item_to_supplier ∅.

(** The truth value of [self._mapping.get(key)]: a missing key gives
    [None] and an empty supplier name is false as well. *)
Definition truthy (supplier : option string) : option string :=
  match supplier with
  | Some EmptyString => None
  | other => other
  end.

(** [Document(page_content=supplier, metadata={"item": query})] *)
Record Document := {
  page_content : string;
  metadata_item : string
}.

Definition _get_relevant_documents (m : gmap string string) (query : string)
  : list Document :=
  let key := _normalize query in
  match truthy (m !! key) with
  | Some supplier => [ {| page_content := supplier; metadata_item := query |} ]
  | None =>
      let alt_key := _alt_normalize key in
      match truthy (m !! alt_key) with
      | Some supplier => [ {| page_content := supplier; metadata_item := query |} ]
      | None => []
      end
  end.

(** The dict [{"item": item, "supplier": supplier}] *)
Record Lookup := {
  item : string;
  supplier : string
}.

(** [self.retriever.invoke(item)] runs [_get_relevant_documents] on the
    retriever built from the agent's catalog. *)
Definition _lookup_to_dict (item_to_supplier : catalog) (item : string) : Lookup :=
  let docs := _get_relevant_documents (_mapping item_to_supplier) item in
  let supplier := match docs with
                  | d :: _ => page_content d
                  | [] => "Unknown Supplier"
                  end in
  {| item := item; supplier := supplier |}.

Definition get_supplier (item_to_supplier : catalog) (item : string) : Lookup :=
  _lookup_to_dict item_to_supplier item.

(** [str(lookup)], as the f-string of [supplier_node] prints the dict *)
Definition repr_lookup (l : Lookup) : string :=
  "{'item': " ++ repr (item l) ++ ", 'supplier': " ++ repr (supplier l) ++ "}".

End SupplierAgent.

(** ** src/agents/approval_agent.py *)

Module ApprovalAgent.
Import PyStr.

(** The dict [{"approved": ..., "reason": ...}] *)
Record Decision := {
  approved : bool;
  reason : string
}.

Definition _decide_to_dict (max_auto_approve_quantity quantity : Z) : Decision :=
  if quantity <=? max_auto_approve_quantity then
    {| approved := true;
       reason := "Quantity " ++ str_of_int quantity
                 ++ " is within auto-approval threshold (<= "
                 ++ str_of_int max_auto_approve_quantity ++ ")." |}
  else
    {| approved := false;
       reason := "Quantity " ++ str_of_int quantity
                 ++ " exceeds auto-approval threshold (> "
                 ++ str_of_int max_auto_approve_quantity ++ ")." |}.

Definition decide (max_auto_approve_quantity quantity : Z) : Decision :=
  _decide_to_dict max_auto_approve_quantity quantity.

(** [str(decision)], as the f-string of [approval_node] prints the dict *)
Definition repr_decision (d : Decision) : string :=
  "{'approved': " ++ str_of_bool (approved d) ++ ", 'reason': " ++ repr (reason d) ++ "}".

End ApprovalAgent.

(** ** Values, state and exceptions of the workflow *)

(** The values a state key holds, after the annotations of [WorkflowState]:
    [str], [int], [bool] and [List[str]].  A [TypedDict] is not checked when
    the program runs, so any key may hold any of the four. *)
Inductive value :=
| VStr (s : string)
| VInt (n : Z)
| VBool (b : bool)
| VList (l : list string).

(** The exceptions the embedded code can raise.  [StageExecutionError] is
    the class the specification's error taxonomy names; nothing under src
    defines, imports or raises it. *)
Inductive exn :=
| KeyError (key : string)
| TypeError
| AttributeError
| ValueError
| OSError
| StageExecutionError (node_name : string) (cause : exn).

(** The outcome of a call: a returned value or a raised exception. *)
Inductive result (A : Type) :=
| Ok (a : A)
| Raise (e : exn).
Arguments Ok {A} a.
Arguments Raise {A} e.

#[global] Instance result_ret : MRet result := fun _ a => Ok a.
#[global] Instance result_bind : MBind result := fun _ _ f m =>
  match m with
  | Ok a => f a
  | Raise e => Raise e
  end.

Definition is_ok {A} (r : result A) : bool :=
  match r with Ok _ => true | Raise _ => false end.

(** ** The graph builder

    [StateGraph], its [compile] and the [invoke] of the compiled graph are
    calls into the [langgraph] library.  They are embedded as what the
    library does for a graph like the one [build_graph] wires: named nodes,
    one edge out of each, a state whose keys carry no reducer.  The builder
    does not depend on what a stage is, so it is stated once for any type
    of stage. *)

Module Graph.

Definition START : string := "__start__".
Definition END : string := "__end__".

Section Builder.
Context {stage : Type}.

(** What [build_graph] records: the named nodes and the directed edges,
    in the order of the calls. *)
Record StateGraph := {
  nodes : list (string * stage);
  edges : list (string * string)
}.

Definition empty_graph : StateGraph := {| nodes := []; edges := [] |}.

Definition add_node (name : string) (f : stage) (g : StateGraph) : StateGraph :=
  {| nodes := nodes g ++ [(name, f)]; edges := edges g |}.

Definition add_edge (src dst : string) (g : StateGraph) : StateGraph :=
  {| nodes := nodes g; edges := edges g ++ [(src, dst)] |}.

(** The calls of [build_graph()] on the graph, for the three node
    functions it defines. *)
Definition wire (intake_node supplier_node approval_node : stage) : StateGraph :=
  let graph := empty_graph in
  let graph := add_node "intake" intake_node graph in
  let graph := add_node "supplier" supplier_node graph in
  let graph := add_node "approval" approval_node graph in
  let graph := add_edge START "intake" graph in
  let graph := add_edge "intake" "supplier" graph in
  let graph := add_edge "supplier" "approval" graph in
  let graph := add_edge "approval" END graph in
  graph.

Definition successor (g : StateGraph) (name : string) : option string :=
  snd <$> List.find (fun e => String.eqb (fst e) name) (edges g).

Definition node_named (g : StateGraph) (name : string) : option stage :=
  snd <$> List.find (fun n => String.eqb (fst n) name) (nodes g).

(** The order in which the compiled graph runs its nodes: the sequence
    found by following the edges from [START] until [END], or until an
    edge names no node.  [fuel] bounds the walk by the number of
    registered nodes. *)
Fixpoint follow (g : StateGraph) (fuel : nat) (name : string)
  : list (string * stage) :=
  match fuel with
  | O => []
  | S fuel' =>
      match successor g name with
      | Some next =>
          match node_named g next with
          | Some f => (next, f) :: follow g fuel' next
          | None => []
          end
      | None => []
      end
  end.

Definition compile (g : StateGraph) : list (string * stage) :=
  follow g (length (nodes g)) START.
End Builder.
Arguments StateGraph : clear implicits.

End Graph.

(** ** src/workflow/run_workflow.py *)

Module Workflow.
Import PyStr.

(** [WorkflowState]: a dict from key to value. *)
Abbreviation WorkflowState := (gmap string value).

(** [state[key]] *)
Definition getitem (state : WorkflowState) (key : string) : result value :=
  match state !! key with
  | Some v => Ok v
  | None => Raise (KeyError key)
  end.

(** [state.get(key, default)] *)
Definition get (state : WorkflowState) (key : string) (default : value) : value :=
  match state !! key with
  | Some v => v
  | None => default
  end.

(** A value handed to [re.search] / [re.sub]: anything but a [str] is a
    [TypeError]. *)
Definition re_subject (v : value) : result string :=
  match v with
  | VStr s => Ok s
  | _ => Raise TypeError
  end.

(** A value on which [.strip()] is called: only a [str] has the method. *)
Definition str_receiver (v : value) : result string :=
  match v with
  | VStr s => Ok s
  | _ => Raise AttributeError
  end.

(** [v + [entry]]: list concatenation, a new list; a left operand of
    another type is a [TypeError]. *)
Definition list_add (v : value) (entry : string) : result (list string) :=
  match v with
  | VList l => Ok (l ++ [entry])%list
  | _ => Raise TypeError
  end.

(** The digits of [int(text)]: a digit first, single underscores only
    between digits.  [after_digit] tells that the previous character was a
    digit. *)
Fixpoint int_digits (acc : Z) (after_digit : bool) (s : string) : option Z :=
  match s with
  | EmptyString => if after_digit then Some acc else None
  | String c r =>
      if isdigit c then int_digits (10 * acc + digit_value c) true r
      else if Ascii.eqb c "_" && after_digit then int_digits acc false r
      else None
  end.

(** [int(text)] in base ten: surrounding white space, an optional sign,
    then the digits. *)
Definition int_of_str (text : string) : option Z :=
  match strip text with
  | String "-" r => Z.opp <$> int_digits 0 false r
  | String "+" r => int_digits 0 false r
  | t => int_digits 0 false t
  end.

(** The builtin [int(v)] *)
Definition py_int (v : value) : result Z :=
  match v with
  | VInt n => Ok n
  | VBool b => Ok (Z.b2z b)
  | VStr s => match int_of_str s with
              | Some n => Ok n
              | None => Raise ValueError
              end
  | VList _ => Raise TypeError
  end.

(** A stage: [(state) -> state], or an exception. *)
Definition stage := WorkflowState -> result WorkflowState.

Section Nodes.
(** The configuration [build_graph] closes its three nodes over. *)
Variable item_to_supplier : SupplierAgent.catalog.
Variable max_auto_approve_quantity : Z.

Definition intake_node : stage := fun state =>
  request ← getitem state "original_request";
  request ← re_subject request;
  let parsed := IntakeAgent.parse_request request in
  logs ← list_add (get state "logs" (VList []))
                  ("Intake parsed: " ++ IntakeAgent.repr_parsed parsed);
  Ok (<["logs" := VList logs]>
       (<["quantity" := VInt (IntakeAgent.quantity parsed)]>
         (<["item" := VStr (IntakeAgent.item parsed)]> state))).

Definition supplier_node : stage := fun state =>
  item ← str_receiver (get state "item" (VStr EmptyString));
  let lookup := SupplierAgent.get_supplier item_to_supplier item in
  logs ← list_add (get state "logs" (VList []))
                  ("Supplier selected: " ++ SupplierAgent.repr_lookup lookup);
  Ok (<["logs" := VList logs]>
       (<["supplier" := VStr (SupplierAgent.supplier lookup)]> state)).

Definition approval_node : stage := fun state =>
  quantity ← py_int (get state "quantity" (VInt 1));
  let decision := ApprovalAgent.decide max_auto_approve_quantity quantity in
  logs ← list_add (get state "logs" (VList []))
                  ("Approval decision: " ++ ApprovalAgent.repr_decision decision);
  Ok (<["logs" := VList logs]>
       (<["reason" := VStr (ApprovalAgent.reason decision)]>
         (<["approved" := VBool (ApprovalAgent.approved decision)]> state))).
End Nodes.


(** *** The graph and its run *)

(** [build_graph()]: the catalog and the threshold are the literals of the
    source. *)
Definition item_to_supplier : SupplierAgent.catalog :=
  [ ("laptop", "Acme Computers");
    ("monitor", "Display World");
    ("mouse", "Pointer Pros");
    ("keyboard", "KeyCo");
    ("chair", "OfficeCo");
    ("desk", "FurnishIt") ].

Definition max_auto_approve_quantity : Z := 5.

Definition build_graph : Graph.StateGraph stage :=
  Graph.wire intake_node
             (supplier_node item_to_supplier)
             (approval_node max_auto_approve_quantity).

Definition compile := @Graph.compile stage.

(** The dict display [{ **current_state, **fragment }]: a new dict with the
    entries of [current_state], replaced or extended by those of
    [fragment].  Each node builds what it returns with this display, the
    entries of the fragment written out ([{ **state, "item": ..., }]), and
    the run applies it to what a node returns. *)
Definition merge (current_state fragment : WorkflowState) : WorkflowState :=
  fragment ∪ current_state.

(** The run of the compiled graph on a state.  For each node in plan order
    the node is called with the current state and the dict it returns
    overwrites, key by key, the current state; the state after the last
    node is the result.  This is the loop of the specification's Executor
    section, with two differences that src shows: the state is a
    [WorkflowState], which has no field for a trace kept by the run, and
    there is no [StageExecutionError] and no handler between a node and
    the caller of [invoke], so an exception of a node ends the run and
    reaches the caller as the node raised it.

    The state is the one the first node receives: for the dicts the
    driver builds, the dict itself.  How the library treats an input dict
    with keys that [WorkflowState] does not declare is not modelled. *)
Fixpoint run (plan : list (string * stage)) (state : WorkflowState)
  : result WorkflowState :=
  match plan with
  | [] => Ok state
  | (_, f) :: rest =>
      fragment ← f state;
      run rest (merge state fragment)
  end.

Definition invoke (app : list (string * stage)) (initial_state : WorkflowState)
  : result WorkflowState :=
  run app initial_state.

(** *** [run_demo] and [main] *)

Definition nl : string := String (ascii_of_nat 10) EmptyString.

Fixpoint join (sep : string) (l : list string) : string :=
  match l with
  | [] => EmptyString
  | [x] => x
  | x :: rest => x ++ sep ++ join sep rest
  end.

(** How an f-string field prints [final_state.get(key)] *)
Definition str_of_get (v : option value) : string :=
  match v with
  | None => "None"
  | Some (VStr s) => s
  | Some (VInt n) => str_of_int n
  | Some (VBool b) => str_of_bool b
  | Some (VList l) => "[" ++ join ", " (List.map repr l) ++ "]"
  end.

Fixpoint chars (s : string) : list string :=
  match s with
  | EmptyString => []
  | String c r => String c EmptyString :: chars r
  end.

(** [for entry in v]: a list gives its entries, a [str] its characters,
    and the other values cannot be iterated. *)
Definition iterate (v : value) : result (list string) :=
  match v with
  | VList l => Ok l
  | VStr s => Ok (chars s)
  | _ => Raise TypeError
  end.

Definition initial_state (request : string) : WorkflowState :=
  <["logs" := VList ["Received request: " ++ request]]>
    (<["original_request" := VStr request]> ∅).

(** The arguments of the [print] calls of [run_demo], one per call, in
    order; the loop over the logs may raise after the first heading. *)
Definition report (final_state : WorkflowState) : list string * option exn :=
  let heading := [nl ++ "=== Procurement Workflow Trace ==="] in
  match iterate (get final_state "logs" (VList [])) with
  | Raise e => (heading, Some e)
  | Ok entries =>
      let trace := List.map (fun entry => "- " ++ entry) entries in
      let outcome :=
        [ nl ++ "=== Final Outcome ===";
          "Item: " ++ str_of_get (final_state !! "item");
          "Quantity: " ++ str_of_get (final_state !! "quantity");
          "Supplier: " ++ str_of_get (final_state !! "supplier");
          "Approved: " ++ str_of_get (final_state !! "approved");
          "Reason: " ++ str_of_get (final_state !! "reason") ] in
      ((heading ++ trace ++ outcome)%list, None)
  end.

(** [run_demo(request)]: what it prints, and the dict it returns or the
    exception that leaves it. *)
Definition run_demo (request : string) : list string * result WorkflowState :=
  let app := compile build_graph in
  match invoke app (initial_state request) with
  | Raise e => ([], Raise e)
  | Ok final_state =>
      match report final_state with
      | (out, Some e) => (out, Raise e)
      | (out, None) => (out, Ok final_state)
      end
  end.

(** What [open("examples/test_requests.txt", "r", encoding="utf-8")] and
    the read inside the [with] block come to. *)
Inductive file_read :=
| FileText (text : string)
| FileNotFoundError
| FileError (e : exn).

Definition is_newline (c : ascii) : bool :=
  (code c =? 10)%nat || (code c =? 13)%nat.

(** The text cut at every line end.  A text file is read with universal
    newlines, so CR, LF and CR LF all end a line; cutting at each of the
    two characters gives the same lines plus empty ones, which [main]
    drops. *)
Fixpoint split_lines (text : string) : list string :=
  match text with
  | EmptyString => [EmptyString]
  | String c r =>
      match split_lines r with
      | line :: rest =>
          if is_newline c then EmptyString :: line :: rest
          else String c line :: rest
      | [] => [String c EmptyString]
      end
  end.

Definition nonempty (s : string) : bool :=
  match s with EmptyString => false | _ => true end.

(** [[line.strip() for line in f.readlines() if line.strip()]] *)
Definition request_lines (text : string) : list string :=
  List.filter nonempty (List.map strip (split_lines text)).

(** The loop of [main]: the prints of the requests processed so far, and
    the exception that stopped the loop, if one did. *)
Fixpoint process (lines : list string) : list string * option exn :=
  match lines with
  | [] => ([], None)
  | req :: rest =>
      match run_demo req with
      | (out, Raise e) => (out, Some e)
      | (out, Ok _) =>
          let (out', e) := process rest in ((out ++ out')%list, e)
      end
  end.

(** [main()], given what reading the default requests file comes to:
    everything printed, and the exception that ends the process, if any. *)
Definition main (file : file_read) : list string * option exn :=
  match file with
  | FileText text => process (request_lines text)
  | FileNotFoundError => process ["Order 3 laptops"]
  | FileError e => ([], Some e)
  end.

End Workflow.

(** ** The same run over a store of objects

    Python passes dicts and lists by reference.  To speak of the object a
    caller hands to [invoke], the nodes and the run are embedded a second
    time over an explicit store: a dict or a list lives at an address, a
    state key holds a [str], an [int], a [bool] or the address of an object,
    and every dict display, list display and list concatenation of the
    source allocates a new object.  The source has no statement that assigns
    into an existing dict or list and calls no mutating method, so the nodes
    and the run only read the store and allocate in it. *)

Module Store.
Import PyStr.

Definition loc := nat.

Inductive hval :=
| HStr (s : string)
| HInt (n : Z)
| HBool (b : bool)
| HRef (l : loc).

Inductive obj :=
| OList (items : list string)
| ODict (entries : gmap string hval).

(** The store: the object at address [l] is the [l]-th one allocated. *)
Definition heap := list obj.

(** A computation over the store that returns or raises. *)
Definition M (A : Type) : Type := heap -> result A * heap.

#[global] Instance M_ret : MRet M := fun _ a h => (Ok a, h).
#[global] Instance M_bind : MBind M := fun _ _ f m h =>
  match m h with
  | (Ok a, h') => f a h'
  | (Raise e, h') => (Raise e, h')
  end.

Definition raise {A} (e : exn) : M A := fun h => (Raise e, h).

Definition alloc (o : obj) : M loc := fun h => (Ok (length h), (h ++ [o])%list).

(** The object behind an address.  An address that names no object does
    not occur in a Python program; the case is there to keep [load]
    total. *)
Definition load (l : loc) : M obj := fun h =>
  match h !! l with
  | Some o => (Ok o, h)
  | None => (Raise TypeError, h)
  end.

(** The entries of the dict a node receives as its [state] *)
Definition load_dict (l : loc) : M (gmap string hval) :=
  o ← load l;
  match o with
  | ODict d => mret d
  | OList _ => raise TypeError
  end.

(** [state[key]] *)
Definition getitem (d : gmap string hval) (key : string) : M hval :=
  match d !! key with
  | Some v => mret v
  | None => raise (KeyError key)
  end.

Definition re_subject (v : hval) : M string :=
  match v with
  | HStr s => mret s
  | _ => raise TypeError
  end.

Definition str_receiver (v : hval) : M string :=
  match v with
  | HStr s => mret s
  | _ => raise AttributeError
  end.

(** [state.get("logs", []) + [entry]]: the default list and the
    one-entry list are built first, then the concatenation makes a third
    list when the left operand is a list, and is a [TypeError]
    otherwise. *)
Definition logs_plus (d : gmap string hval) (entry : string) : M loc :=
  default ← alloc (OList []);
  let left := match d !! "logs" with Some v => v | None => HRef default end in
  right ← alloc (OList [entry]);
  match left with
  | HRef l =>
      o ← load l;
      match o with
      | OList items => alloc (OList (items ++ [entry])%list)
      | ODict _ => raise TypeError
      end
  | _ => raise TypeError
  end.

(** The builtin [int(v)] *)
Definition py_int (v : hval) : M Z :=
  match v with
  | HInt n => mret n
  | HBool b => mret (Z.b2z b)
  | HStr s => match Workflow.int_of_str s with
              | Some n => mret n
              | None => raise ValueError
              end
  | HRef _ => raise TypeError
  end.

(** [logs.append(entry)], the in-place counterpart of [logs + [entry]]:
    it changes the list object it is called on.  No node calls it; it is
    here to show what the frame property of the run excludes. *)
Definition list_append (l : loc) (entry : string) : M unit := fun h =>
  match h !! l with
  | Some (OList items) => (Ok tt, <[l := OList (items ++ [entry])%list]> h)
  | _ => (Raise AttributeError, h)
  end.

Definition stage := loc -> M loc.

Section Nodes.
Variable item_to_supplier : SupplierAgent.catalog.
Variable max_auto_approve_quantity : Z.

Definition intake_node : stage := fun state =>
  d ← load_dict state;
  request ← getitem d "original_request";
  request ← re_subject request;
  let parsed := IntakeAgent.parse_request request in
  logs ← logs_plus d ("Intake parsed: " ++ IntakeAgent.repr_parsed parsed);
  alloc (ODict (<["logs" := HRef logs]>
                 (<["quantity" := HInt (IntakeAgent.quantity parsed)]>
                   (<["item" := HStr (IntakeAgent.item parsed)]> d)))).

Definition supplier_node : stage := fun state =>
  d ← load_dict state;
  item ← str_receiver (match d !! "item" with
                       | Some v => v
                       | None => HStr EmptyString
                       end);
  let lookup := SupplierAgent.get_supplier item_to_supplier item in
  logs ← logs_plus d ("Supplier selected: " ++ SupplierAgent.repr_lookup lookup);
  alloc (ODict (<["logs" := HRef logs]>
                 (<["supplier" := HStr (SupplierAgent.supplier lookup)]> d))).

Definition approval_node : stage := fun state =>
  d ← load_dict state;
  quantity ← py_int (match d !! "quantity" with
                     | Some v => v
                     | None => HInt 1
                     end);
  let decision := ApprovalAgent.decide max_auto_approve_quantity quantity in
  logs ← logs_plus d ("Approval decision: " ++ ApprovalAgent.repr_decision decision);
  alloc (ODict (<["logs" := HRef logs]>
                 (<["reason" := HStr (ApprovalAgent.reason decision)]>
                   (<["approved" := HBool (ApprovalAgent.approved decision)]> d)))).
End Nodes.

Definition build_graph : Graph.StateGraph stage :=
  Graph.wire intake_node
             (supplier_node Workflow.item_to_supplier)
             (approval_node Workflow.max_auto_approve_quantity).

Definition compile := @Graph.compile stage.

(** The run of the compiled graph over the store.  Each node is called
    with the address of the current state; the dict it returns and the
    current one are merged into a new dict. *)
Fixpoint run (plan : list (string * stage)) (state : loc) : M loc :=
  match plan with
  | [] => mret state
  | (_, f) :: rest =>
      fragment ← f state;
      current ← load_dict state;
      update ← load_dict fragment;
      next ← alloc (ODict (update ∪ current));
      run rest next
  end.

(** [invoke] reads the entries of the caller's dict into a state of its
    own, a fresh dict with the same values, and runs the plan on it. *)
Definition invoke (plan : list (string * stage)) (initial_state : loc) : M loc :=
  d ← load_dict initial_state;
  copy ← alloc (ODict d);
  run plan copy.

(** *** Reading the store back *)

(** The store value [v] stands for the value [w]. *)
Definition val_at (h : heap) (v : hval) (w : value) : Prop :=
  match v, w with
  | HStr a, VStr b => a = b
  | HInt a, VInt b => a = b
  | HBool a, VBool b => a = b
  | HRef l, VList items => h !! l = Some (OList items)
  | _, _ => False
  end.

(** The entries [d] of a dict read as the state [s]: the same keys, each
    with a store value that stands for the value of [s]. *)
Definition dict_at (h : heap) (d : gmap string hval) (s : gmap string value)
  : Prop :=
  forall k, option_Forall2 (val_at h) (d !! k) (s !! k).

(** The object at [l] is a dict that reads as the state [s]. *)
Definition state_at (h : heap) (l : loc) (s : gmap string value) : Prop :=
  exists d, h !! l = Some (ODict d) /\ dict_at h d s.

End Store.

(** ** Vocabulary of the statements *)


(** [needle in text] *)
Fixpoint mentions (text needle : string) : bool :=
  if String.prefix needle text then true
  else match text with
       | EmptyString => false
       | String _ r => mentions r needle
       end.

(** The three log entries the nodes write for a request, in the order of
    the plan. *)
Definition stage_entries (request : string) : list string :=
  let parsed := IntakeAgent.parse_request request in
  let lookup := SupplierAgent.get_supplier Workflow.item_to_supplier
                  (IntakeAgent.item parsed) in
  let decision := ApprovalAgent.decide Workflow.max_auto_approve_quantity
                    (IntakeAgent.quantity parsed) in
  [ "Intake parsed: " ++ IntakeAgent.repr_parsed parsed;
    "Supplier selected: " ++ SupplierAgent.repr_lookup lookup;
    "Approval decision: " ++ ApprovalAgent.repr_decision decision ].

(** The state a run ends in when it starts from [init], whose request is
    [request] and whose logs are [logs]. *)
Definition final_state_of (init : gmap string value) (request : string)
    (logs : list string) : gmap string value :=
  let parsed := IntakeAgent.parse_request request in
  let lookup := SupplierAgent.get_supplier Workflow.item_to_supplier
                  (IntakeAgent.item parsed) in
  let decision := ApprovalAgent.decide Workflow.max_auto_approve_quantity
                    (IntakeAgent.quantity parsed) in
  <["logs" := VList (logs ++ stage_entries request)%list]>
    (<["reason" := VStr (ApprovalAgent.reason decision)]>
      (<["approved" := VBool (ApprovalAgent.approved decision)]>
        (<["supplier" := VStr (SupplierAgent.supplier lookup)]>
          (<["quantity" := VInt (IntakeAgent.quantity parsed)]>
            (<["item" := VStr (IntakeAgent.item parsed)]> init))))).

(** A state that carries an audit trace of the run beside the [logs] the
    stages write: some other key holds a sequence with one entry per stage
    of the plan. *)
Definition carries_trace_beside_logs {stage} (plan : list (string * stage))
    (final : gmap string value) : Prop :=
  exists key entries,
    key <> "logs" /\ final !! key = Some (VList entries) /\
    length entries = length plan.

(** The plan of the compiled workflow graph *)
Definition app : list (string * Workflow.stage) :=
  Workflow.compile Workflow.build_graph.

(** The initial state [{original_request: request}] of the scenarios *)
Definition request_only (request : string) : gmap string value :=
  {[ "original_request" := VStr request ]}.


(** A computation that leaves every object of the store as it finds it:
    the store it ends in is the one it started from followed by the
    objects it allocated. *)
Definition grows {A} (m : Store.M A) : Prop := forall h, h `prefix_of` (m h).2.

(** The store of a caller that built the state of [run_demo] for the
    request ["Order 3 laptops"]: the logs list at address 0, the state
    dict at address 1. *)
Definition caller_store : Store.heap :=
  [ Store.OList ["Received request: Order 3 laptops"];
    Store.ODict (<["logs" := Store.HRef 0%nat]>
            (<["original_request" := Store.HStr "Order 3 laptops"]> ∅)) ].

(** A store stage and a value stage agree: from a dict that reads as the
    state [s], the store stage raises what the value stage raises on [s], or
    returns a dict that reads as the state the value stage returns. *)
Definition agrees (fh : Store.stage) (fp : Workflow.stage) : Prop :=
  forall h l s,
    Store.state_at h l s ->
    match fp s with
    | Ok s' => exists l', (fh l h).1 = Ok l' /\ Store.state_at (fh l h).2 l' s'
    | Raise e => (fh l h).1 = Raise e
    end.

(** Every character of the text satisfies [P]. *)
Fixpoint all_chars (P : ascii -> bool) (s : string) : bool :=
  match s with
  | EmptyString => true
  | String c r => P c && all_chars P r
  end.

Definition not_digit (c : ascii) : bool := negb (PyStr.isdigit c).
Definition not_space (c : ascii) : bool := negb (PyStr.isspace c).


(** The text is empty or starts with a character that is not white
    space. *)
Definition starts_clean (s : string) : bool :=
  match s with
  | EmptyString => true
  | String c _ => negb (PyStr.isspace c)
  end.


Definition not_newline (c : ascii) : bool := negb (Workflow.is_newline c).

(** A store computation that, when it returns, returns the address of a
    dict it allocated itself. *)
Definition returns_new_dict (m : Store.M Store.loc) : Prop :=
  forall h l,
    (m h).1 = Ok l ->
    (length h <= l)%nat /\ exists d, (m h).2 !! l = Some (Store.ODict d).

(** ** Strings *)

Section StringFacts.
Import PyStr.

Lemma isspace_lower_char c : isspace (lower_char c) = isspace c.
Proof. destruct c as [[] [] [] [] [] [] [] []]; reflexivity. Qed.

Lemma lower_lstrip s : lower (lstrip s) = lstrip (lower s).
Proof.
  induction s as [|c r IH]; simpl; [reflexivity|].
  rewrite isspace_lower_char. destruct (isspace c); [exact IH | reflexivity].
Qed.

Lemma lower_rstrip s : lower (rstrip s) = rstrip (lower s).
Proof.
  induction s as [|c r IH]; simpl; [reflexivity|].
  rewrite <- IH, isspace_lower_char.
  destruct (rstrip r); simpl; [destruct (isspace c)|]; reflexivity.
Qed.

Lemma lower_strip s : lower (strip s) = strip (lower s).
Proof. unfold strip. rewrite lower_rstrip, lower_lstrip. reflexivity. Qed.

Lemma endswith_cons c r suffix :
  endswith (String c r) suffix
  = String.eqb (String c r) suffix || endswith r suffix.
Proof. simpl. destruct (String.eqb (String c r) suffix); reflexivity. Qed.

Lemma endswith_s_nonempty s : endswith s "s" = true -> s <> EmptyString.
Proof. intros H ->. discriminate H. Qed.

Lemma eqb_long_s c d r : String.eqb (String c (String d r)) "s" = false.
Proof. simpl. destruct (Ascii.eqb c "s"); reflexivity. Qed.

(** Cutting the final [s] of a text that ends in [s] leaves a text that
    ends in [s] only if the text ended in [ss]. *)
Lemma endswith_drop_last s :
  endswith s "s" = true -> endswith (drop_last s) "s" = true ->
  endswith s "ss" = true.
Proof.
  induction s as [|c r IH]; [discriminate|].
  destruct r as [|d r'].
  - intros _ H. discriminate H.
  - intros Hs Hd. rewrite endswith_cons, eqb_long_s in Hs. simpl orb in Hs.
    change (drop_last (String c (String d r')))
      with (String c (drop_last (String d r'))) in Hd.
    rewrite endswith_cons in Hd. rewrite endswith_cons.
    apply orb_true_iff in Hd as [Hd|Hd].
    + apply String.eqb_eq in Hd. injection Hd as -> Hd.
      destruct r' as [|e r'']; [|destruct r''; simpl in Hd; discriminate Hd].
      assert (d = "s"%char) as ->; [|reflexivity].
      simpl in Hs.
      destruct (Ascii.eqb_spec d "s") as [Heq|Hne]; [exact Heq|discriminate Hs].
    + rewrite (IH Hs Hd). apply orb_true_r.
Qed.

Lemma plural_like_drop_last s :
  plural_like s = true -> plural_like (drop_last s) = false.
Proof.
  unfold plural_like. intros H.
  apply andb_true_iff in H as [Hs Hss]. apply negb_true_iff in Hss.
  destruct (endswith (drop_last s) "s") eqn:Hd; [|reflexivity].
  rewrite (endswith_drop_last s Hs Hd) in Hss. discriminate Hss.
Qed.

(** A normalized name is never cut again. *)
Lemma plural_like_normalize text :
  plural_like (SupplierAgent._normalize text) = false.
Proof.
  unfold SupplierAgent._normalize.
  destruct (plural_like (lower (strip text))) eqn:H;
    [apply plural_like_drop_last|]; exact H.
Qed.

(** So the second-chance key is always the normalized name plus [s]. *)
Lemma alt_normalize_normalize text :
  SupplierAgent._alt_normalize (SupplierAgent._normalize text)
  = SupplierAgent._normalize text ++ "s".
Proof.
  unfold SupplierAgent._alt_normalize at 1.
  rewrite plural_like_normalize. reflexivity.
Qed.



End StringFacts.

(** ** The run of the compiled graph *)

(** Case analysis on what a node reads from the state: the scrutinee of a
    [match] is split, and the binds over a known outcome are reduced. *)
Ltac node_step :=
  cbn [mbind result_bind Workflow.re_subject Workflow.str_receiver
       Workflow.list_add Workflow.py_int];
  match goal with
  | |- context [Workflow.re_subject ?v] => is_var v; destruct v
  | |- context [Workflow.str_receiver ?v] => is_var v; destruct v
  | |- context [Workflow.list_add ?v _] => is_var v; destruct v
  | |- context [Workflow.py_int ?v] => is_var v; destruct v
  | |- context [match ?x with _ => _ end] => destruct x eqn:?
  end.
Ltac node_cases :=
  repeat node_step;
  cbn [mbind result_bind Workflow.re_subject Workflow.str_receiver
       Workflow.list_add Workflow.py_int].

Section RunFacts.
Import Workflow.

(** Following the edges of [build_graph] gives the three nodes in the
    order intake, supplier, approval. *)
Lemma app_plan :
  app = [ ("intake", intake_node);
          ("supplier", supplier_node item_to_supplier);
          ("approval", approval_node max_auto_approve_quantity) ].
Proof. reflexivity. Qed.

Lemma merge_lookup (state fragment : gmap string value) k :
  merge state fragment !! k
  = match fragment !! k with
    | Some v => Some v
    | None => state !! k
    end.
Proof.
  unfold merge. rewrite lookup_union.
  destruct (fragment !! k), (state !! k); reflexivity.
Qed.

Lemma merge_self (state : gmap string value) : merge state state = state.
Proof.
  apply map_eq. intros k. rewrite merge_lookup.
  destruct (state !! k); reflexivity.
Qed.

Lemma merge_insert (state m : gmap string value) k v :
  merge state (<[k := v]> m) = <[k := v]> (merge state m).
Proof. unfold merge. symmetry. apply insert_union_l. Qed.

(** A node returns [{**state, ...}], so merging what it returns into the
    state it was called with gives what it returned. *)
Lemma merge_own_output (f : stage) state fragment :
  f = intake_node \/ f = supplier_node item_to_supplier
  \/ f = approval_node max_auto_approve_quantity ->
  f state = Ok fragment -> merge state fragment = fragment.
Proof.
  intros Hf Hrun.
  destruct Hf as [-> | [-> | ->]]; revert Hrun;
    unfold intake_node, supplier_node, approval_node, getitem, get;
    node_cases; try discriminate;
    intros [= <-]; rewrite !merge_insert, merge_self; reflexivity.
Qed.

(** Each node returns the display [{ **state, ... }] of the state it was
    called with and of the entries it writes. *)
Lemma node_result_is_merge (f : stage) state fragment :
  f = intake_node \/ f = supplier_node item_to_supplier
  \/ f = approval_node max_auto_approve_quantity ->
  f state = Ok fragment ->
  exists update, fragment = merge state update /\ update !! "logs" <> None.
Proof.
  intros Hf Hrun.
  destruct Hf as [-> | [-> | ->]]; revert Hrun;
    unfold intake_node, supplier_node, approval_node, getitem, get;
    node_cases; try discriminate;
    intros [= <-];
    match goal with
    | |- exists update, <[?a := ?x]> (<[?b := ?y]> (<[?c := ?z]> state)) = _ /\ _ =>
        exists (<[a := x]> (<[b := y]> (<[c := z]> ∅)))
    | |- exists update, <[?a := ?x]> (<[?b := ?y]> state) = _ /\ _ =>
        exists (<[a := x]> (<[b := y]> ∅))
    end;
    (split; [| rewrite lookup_insert_eq; discriminate]);
    rewrite !merge_insert; unfold merge; rewrite (left_id_L ∅ (∪)); reflexivity.
Qed.

Lemma merge_over2 (state : gmap string value) a x b y :
  merge state (<[a := x]> (<[b := y]> state)) = <[a := x]> (<[b := y]> state).
Proof. rewrite !merge_insert, merge_self. reflexivity. Qed.

Lemma merge_over3 (state : gmap string value) a x b y c z :
  merge state (<[a := x]> (<[b := y]> (<[c := z]> state)))
  = <[a := x]> (<[b := y]> (<[c := z]> state)).
Proof. rewrite !merge_insert, merge_self. reflexivity. Qed.

Lemma get_insert_eq (m : gmap string value) k v d : get (<[k := v]> m) k d = v.
Proof. unfold get. rewrite lookup_insert_eq. reflexivity. Qed.

Lemma get_insert_ne (m : gmap string value) k k' v d :
  k <> k' -> get (<[k := v]> m) k' d = get m k' d.
Proof. intros H. unfold get. rewrite lookup_insert_ne by exact H. reflexivity. Qed.

Lemma intake_node_ok state request logs :
  state !! "original_request" = Some (VStr request) ->
  get state "logs" (VList []) = VList logs ->
  intake_node state
  = let parsed := IntakeAgent.parse_request request in
    Ok (<["logs" := VList (logs ++ [("Intake parsed: " ++ IntakeAgent.repr_parsed parsed)%string])%list]>
         (<["quantity" := VInt (IntakeAgent.quantity parsed)]>
           (<["item" := VStr (IntakeAgent.item parsed)]> state))).
Proof.
  intros Hreq Hlogs. unfold intake_node, getitem.
  rewrite Hreq, Hlogs. reflexivity.
Qed.

Lemma supplier_node_ok catalog state item logs :
  get state "item" (VStr EmptyString) = VStr item ->
  get state "logs" (VList []) = VList logs ->
  supplier_node catalog state
  = let lookup := SupplierAgent.get_supplier catalog item in
    Ok (<["logs" := VList (logs ++ [("Supplier selected: " ++ SupplierAgent.repr_lookup lookup)%string])%list]>
         (<["supplier" := VStr (SupplierAgent.supplier lookup)]> state)).
Proof.
  intros Hitem Hlogs. unfold supplier_node.
  rewrite Hitem, Hlogs. reflexivity.
Qed.

Lemma approval_node_ok threshold state quantity logs :
  get state "quantity" (VInt 1) = VInt quantity ->
  get state "logs" (VList []) = VList logs ->
  approval_node threshold state
  = let decision := ApprovalAgent.decide threshold quantity in
    Ok (<["logs" := VList (logs ++ [("Approval decision: " ++ ApprovalAgent.repr_decision decision)%string])%list]>
         (<["reason" := VStr (ApprovalAgent.reason decision)]>
           (<["approved" := VBool (ApprovalAgent.approved decision)]> state))).
Proof.
  intros Hq Hlogs. unfold approval_node.
  rewrite Hq, Hlogs. reflexivity.
Qed.

Lemma run_cons name (f : stage) rest state :
  run ((name, f) :: rest) state
  = f state ≫= fun fragment => run rest (merge state fragment).
Proof. reflexivity. Qed.

(** What a run of the compiled graph comes to, for every initial state:
    it fails in the intake node when the request is missing or is not a
    text, or when the logs are not a list, and otherwise ends in the state
    that [final_state_of] spells out. *)
Lemma invoke_app (init : gmap string value) :
  invoke app init
  = match init !! "original_request" with
    | None => Raise (KeyError "original_request")
    | Some (VStr request) =>
        match get init "logs" (VList []) with
        | VList logs => Ok (final_state_of init request logs)
        | _ => Raise TypeError
        end
    | Some _ => Raise TypeError
    end.
Proof.
  rewrite app_plan. unfold invoke. rewrite run_cons.
  destruct (init !! "original_request") as [[request| | |]|] eqn:Hreq;
    try (unfold intake_node, getitem; rewrite Hreq; reflexivity).
  destruct (get init "logs" (VList [])) as [| | |logs] eqn:Hlogs;
    try (unfold intake_node, getitem; rewrite Hreq, Hlogs; reflexivity).
  rewrite (intake_node_ok _ _ _ Hreq Hlogs). cbn zeta. cbn [mbind result_bind].
  rewrite merge_over3, run_cons.
  erewrite supplier_node_ok;
    [| rewrite !get_insert_ne by done; apply get_insert_eq
     | apply get_insert_eq ].
  cbn zeta. cbn [mbind result_bind].
  rewrite merge_over2, run_cons.
  erewrite approval_node_ok;
    [| rewrite !get_insert_ne by done; apply get_insert_eq
     | apply get_insert_eq ].
  cbn zeta. cbn [mbind result_bind run].
  rewrite merge_over3.
  f_equal. unfold final_state_of, stage_entries.
  apply map_eq; intros k; rewrite !lookup_insert.
  repeat case_decide; try reflexivity; try congruence.
  rewrite <- !app_assoc. reflexivity.
Qed.

End RunFacts.

(** ** The two scenarios of the specification *)

Section Scenarios.
Import Workflow.

Lemma invoke_request_only request :
  invoke app (request_only request)
  = Ok (final_state_of (request_only request) request []).
Proof.
  rewrite invoke_app. unfold request_only, get.
  rewrite lookup_singleton_eq, lookup_singleton_ne by done. reflexivity.
Qed.

(** The example of the module docstring of intake_agent.py *)
Example parse_request_docstring :
  IntakeAgent.parse_request "Order 3 laptops"
  = {| IntakeAgent.item := "laptops";
       IntakeAgent.quantity := 3;
       IntakeAgent.raw_request := "Order 3 laptops" |}.
Proof. reflexivity. Qed.

(** The example of the module docstring of supplier_agent.py *)
Example get_supplier_docstring :
  SupplierAgent.get_supplier
    [("laptop", "Acme Computers"); ("chair", "OfficeCo")] "laptops"
  = {| SupplierAgent.item := "laptops";
       SupplierAgent.supplier := "Acme Computers" |}.
Proof. vm_compute. reflexivity. Qed.

(** C1, as stated, fails: no run from [{original_request: "Order 3
    laptops"}] ends in a state whose item is ["laptop"] (with quantity 3,
    supplier ["Acme Computers"] and approved true). *)
Lemma laptops_item_is_not_singular :
  ~ exists final,
      invoke app (request_only "Order 3 laptops") = Ok final /\
      final !! "item" = Some (VStr "laptop") /\
      final !! "quantity" = Some (VInt 3) /\
      final !! "supplier" = Some (VStr "Acme Computers") /\
      final !! "approved" = Some (VBool true).
Proof.
  intros (final & Hrun & Hitem & _).
  rewrite invoke_request_only in Hrun. injection Hrun as <-.
  vm_compute in Hitem. discriminate Hitem.
Qed.

(** C1, amended: invoking the compiled pipeline on [{original_request:
    "Order 3 laptops"}] yields a final state with item ["laptops"] (the
    plural is kept, as the quantity is not one), quantity 3, supplier
    ["Acme Computers"] and approved true. *)
Theorem order_3_laptops :
  exists final,
    invoke app (request_only "Order 3 laptops") = Ok final /\
    final !! "item" = Some (VStr "laptops") /\
    final !! "quantity" = Some (VInt 3) /\
    final !! "supplier" = Some (VStr "Acme Computers") /\
    final !! "approved" = Some (VBool true).
Proof.
  eexists. split; [apply invoke_request_only|].
  unfold final_state_of. cbv zeta.
  repeat split;
    repeat (rewrite lookup_insert_ne by done); rewrite lookup_insert_eq;
    vm_compute; reflexivity.
Qed.

(** C4: invoking the compiled pipeline on [{original_request: "Order 10
    chairs"}] yields a final state with quantity 10, supplier
    ["OfficeCo"], approved false, and a reason that names the approval
    threshold: the text ["Quantity 10 exceeds auto-approval threshold (>
    5)."], in which the threshold 5 of the graph appears. *)
Theorem order_10_chairs :
  exists final reason,
    invoke app (request_only "Order 10 chairs") = Ok final /\
    final !! "quantity" = Some (VInt 10) /\
    final !! "supplier" = Some (VStr "OfficeCo") /\
    final !! "approved" = Some (VBool false) /\
    final !! "reason" = Some (VStr reason) /\
    reason = "Quantity 10 exceeds auto-approval threshold (> 5)." /\
    mentions reason
      ("threshold (> " ++ PyStr.str_of_int max_auto_approve_quantity ++ ")") = true.
Proof.
  eexists. eexists. split; [apply invoke_request_only|].
  unfold final_state_of. cbv zeta.
  repeat split;
    repeat (rewrite lookup_insert_ne by done); try rewrite lookup_insert_eq;
    vm_compute; reflexivity.
Qed.

End Scenarios.

(** ** The merge step *)

Section Merge.
Import Workflow.

(** C7: the shallow-overwrite merge [{ **current_state, **fragment }] is
    idempotent in the fragment, for every state and every fragment, and a
    key of the result holds the fragment's value when the fragment has the
    key and otherwise the value the state had, absent keys staying
    absent. *)
Theorem merge_idempotent (current_state fragment : gmap string value) :
  merge (merge current_state fragment) fragment = merge current_state fragment
  /\ forall key,
       merge current_state fragment !! key
       = match fragment !! key with
         | Some v => Some v
         | None => current_state !! key
         end.
Proof.
  split; [|apply merge_lookup].
  apply map_eq. intros key. rewrite !merge_lookup.
  destruct (fragment !! key); reflexivity.
Qed.

End Merge.

(** ** Traces and failures of a run *)

Section Runs.
Import Workflow.


(** A successful run starts from a state with a text request and with
    logs that are a list or missing, and ends in [final_state_of]. *)
Lemma invoke_app_ok init final :
  invoke app init = Ok final ->
  exists request logs,
    init !! "original_request" = Some (VStr request) /\
    get init "logs" (VList []) = VList logs /\
    final = final_state_of init request logs.
Proof.
  rewrite invoke_app.
  destruct (init !! "original_request") as [[request| | |]|]; try discriminate.
  destruct (get init "logs" (VList [])) as [| | |logs]; try discriminate.
  intros [= <-]. exists request, logs. repeat split.
Qed.

Lemma final_state_of_logs init request logs :
  final_state_of init request logs !! "logs"
  = Some (VList (logs ++ stage_entries request)).
Proof. unfold final_state_of. cbv zeta. apply lookup_insert_eq. Qed.

(** The only list the nodes put into the state is the one under
    [logs]. *)
Lemma final_state_of_lists init request logs key entries :
  final_state_of init request logs !! key = Some (VList entries) ->
  key = "logs" \/ init !! key = Some (VList entries).
Proof.
  unfold final_state_of. cbv zeta. rewrite !lookup_insert.
  repeat case_decide; subst; try discriminate; auto.
Qed.

Lemma final_state_of_dom init request logs :
  dom (final_state_of init request logs)
  = dom init ∪ {[ "item"; "quantity"; "supplier"; "approved"; "reason"; "logs" ]}.
Proof.
  unfold final_state_of. cbv zeta. rewrite !dom_insert_L.
  apply set_eq. intros key.
  rewrite !elem_of_union, !elem_of_singleton. tauto.
Qed.

(** C2, as stated, fails: the run on [{original_request: "Order 3
    laptops"}] succeeds, and its final state carries no sequence beside
    the [logs] the stages wrote, so no trace kept by the executor. *)
Lemma no_trace_beside_logs :
  exists final,
    invoke app (request_only "Order 3 laptops") = Ok final /\
    ~ carries_trace_beside_logs app final.
Proof.
  eexists. split; [apply invoke_request_only|].
  intros (key & entries & Hkey & Hlookup & _).
  apply final_state_of_lists in Hlookup as [->|Hinit]; [congruence|].
  unfold request_only in Hinit.
  apply lookup_singleton_Some in Hinit as [_ [=]].
Qed.

(** C2, amended: after every successful run the final state holds, under
    [logs], the logs of the initial state followed by one text entry per
    executed stage, which the stages themselves appended in execution
    order; [logs] is the only sequence the run adds to the state, and it
    adds no key but the six the nodes write. *)
Theorem logs_hold_one_entry_per_stage init final :
  invoke app init = Ok final ->
  exists request logs,
    init !! "original_request" = Some (VStr request) /\
    get init "logs" (VList []) = VList logs /\
    final !! "logs" = Some (VList (logs ++ stage_entries request)) /\
    length (stage_entries request) = length app /\
    (forall key entries,
        final !! key = Some (VList entries) ->
        key = "logs" \/ init !! key = Some (VList entries)) /\
    dom final
    ⊆ dom init ∪ {[ "item"; "quantity"; "supplier"; "approved"; "reason"; "logs" ]}.
Proof.
  intros Hrun. apply invoke_app_ok in Hrun as (request & logs & Hreq & Hlogs & ->).
  exists request, logs. split; [exact Hreq|]. split; [exact Hlogs|].
  split; [apply final_state_of_logs|]. split; [reflexivity|].
  split; [apply final_state_of_lists | rewrite final_state_of_dom; reflexivity].
Qed.

Lemma logs_hold_one_entry_per_stage_witness :
  invoke app (request_only "Order 3 laptops")
  = Ok (final_state_of (request_only "Order 3 laptops") "Order 3 laptops" []) /\
  exists request logs,
    request_only "Order 3 laptops" !! "original_request" = Some (VStr request) /\
    get (request_only "Order 3 laptops") "logs" (VList []) = VList logs /\
    final_state_of (request_only "Order 3 laptops") "Order 3 laptops" [] !! "logs"
    = Some (VList (logs ++ stage_entries request)).
Proof.
  assert (invoke app (request_only "Order 3 laptops")
          = Ok (final_state_of (request_only "Order 3 laptops")
                  "Order 3 laptops" [])) as Hrun
    by (vm_compute; reflexivity).
  split; [exact Hrun|].
  destruct (logs_hold_one_entry_per_stage _ _ Hrun)
    as (request & logs & Hreq & Hlogs & Hfinal & _).
  exists request, logs. repeat split; assumption.
Defined.




(** In the compiled graph only the intake stage can raise: once it has
    returned, the run succeeds. *)
Lemma intake_decides_the_run init fragment :
  intake_node init = Ok fragment -> is_ok (invoke app init) = true.
Proof.
  rewrite invoke_app. unfold intake_node, getitem.
  destruct (init !! "original_request") as [[request| | |]|];
    cbn [mbind result_bind re_subject]; try discriminate.
  destruct (get init "logs" (VList [])) as [| | |logs];
    cbn [mbind result_bind list_add]; try discriminate.
  reflexivity.
Qed.

(** And when the run of the compiled graph raises, it raises what the
    intake stage raised on the initial state. *)
Lemma invoke_raises_what_intake_raises init e :
  invoke app init = Raise e -> intake_node init = Raise e.
Proof.
  rewrite invoke_app. unfold intake_node, getitem.
  destruct (init !! "original_request") as [[request| | |]|];
    cbn [mbind result_bind re_subject]; try (intros H; exact H).
  destruct (get init "logs" (VList [])) as [| | |logs];
    cbn [mbind result_bind list_add]; try (intros H; exact H).
  discriminate.
Qed.

(** C6: for the chain intake, supplier, approval, the trace of every run,
    which is the [logs] list of the final state, is the initial logs
    followed by the entry of the intake stage, then the entry of the
    supplier stage, then the entry of the approval stage. *)
Theorem trace_lists_stages_in_order init final :
  invoke app init = Ok final ->
  List.map fst app = ["intake"; "supplier"; "approval"] /\
  exists logs intake_entry supplier_entry approval_entry,
    get init "logs" (VList []) = VList logs /\
    final !! "logs"
    = Some (VList (logs ++ [intake_entry; supplier_entry; approval_entry])) /\
    String.prefix "Intake parsed: " intake_entry = true /\
    String.prefix "Supplier selected: " supplier_entry = true /\
    String.prefix "Approval decision: " approval_entry = true.
Proof.
  intros Hrun. split; [reflexivity|].
  apply invoke_app_ok in Hrun as (request & logs & _ & Hlogs & ->).
  exists logs. eexists. eexists. eexists.
  split; [exact Hlogs|]. split; [apply final_state_of_logs|].
  repeat split.
Qed.

Lemma trace_lists_stages_in_order_witness :
  invoke app (request_only "Order 10 chairs")
  = Ok (final_state_of (request_only "Order 10 chairs") "Order 10 chairs" []) /\
  exists logs intake_entry supplier_entry approval_entry,
    get (request_only "Order 10 chairs") "logs" (VList []) = VList logs /\
    final_state_of (request_only "Order 10 chairs") "Order 10 chairs" [] !! "logs"
    = Some (VList (logs ++ [intake_entry; supplier_entry; approval_entry])) /\
    String.prefix "Intake parsed: " intake_entry = true /\
    String.prefix "Supplier selected: " supplier_entry = true /\
    String.prefix "Approval decision: " approval_entry = true.
Proof.
  assert (invoke app (request_only "Order 10 chairs")
          = Ok (final_state_of (request_only "Order 10 chairs")
                  "Order 10 chairs" [])) as Hrun
    by (vm_compute; reflexivity).
  split; [exact Hrun|].
  exact (proj2 (trace_lists_stages_in_order _ _ Hrun)).
Defined.

End Runs.

(** ** The driver *)

Section Driver.
Import Workflow.

Lemma invoke_initial_state request :
  invoke app (initial_state request)
  = Ok (final_state_of (initial_state request) request
          ["Received request: " ++ request]).
Proof.
  rewrite invoke_app. unfold initial_state, get.
  rewrite lookup_insert_ne, lookup_insert_eq by done.
  rewrite lookup_insert_eq. reflexivity.
Qed.

(** [run_demo] returns for every request: the run cannot fail on the
    state it builds, and the logs it prints are a list. *)
Lemma run_demo_returns request :
  exists out,
    run_demo request
    = (out, Ok (final_state_of (initial_state request) request
                  ["Received request: " ++ request])).
Proof.
  unfold run_demo. fold app. rewrite invoke_initial_state.
  unfold report, get. rewrite final_state_of_logs.
  cbn [iterate]. eexists. reflexivity.
Qed.

(** So the loop of [main] runs through all its requests. *)
Lemma process_completes lines : (process lines).2 = None.
Proof.
  induction lines as [|req rest IH]; [reflexivity|].
  cbn [process]. destruct (run_demo_returns req) as [out ->].
  destruct (process rest) as [out' e]. exact IH.
Qed.

(** C9: when the requests file is absent, [main] does not fail: it
    processes the one request ["Order 3 laptops"] through the pipeline,
    prints the report of that run and ends without an exception. *)
Theorem main_falls_back_to_sample_request :
  main FileNotFoundError = process ["Order 3 laptops"] /\
  (main FileNotFoundError).2 = None /\
  exists final,
    run_demo "Order 3 laptops" = ((main FileNotFoundError).1, Ok final) /\
    invoke app (initial_state "Order 3 laptops") = Ok final /\
    final !! "supplier" = Some (VStr "Acme Computers") /\
    final !! "approved" = Some (VBool true).
Proof.
  split; [reflexivity|]. split; [apply process_completes|].
  eexists. split; [|split; [apply invoke_initial_state|]].
  - cbn [main process].
    destruct (run_demo_returns "Order 3 laptops") as [out ->].
    cbn [fst]. rewrite app_nil_r. reflexivity.
  - unfold final_state_of. cbv zeta.
    split; repeat (rewrite lookup_insert_ne by done);
      rewrite lookup_insert_eq; vm_compute; reflexivity.
Qed.

(** With a readable file, too, [main] ends without an exception. *)
Lemma main_completes_on_text text : (main (FileText text)).2 = None.
Proof. apply process_completes. Qed.

End Driver.

(** ** The supplier lookup *)

Section SupplierLookup.
Import PyStr SupplierAgent.


(** Entering catalog items whose keys do not normalize to [key] leaves
    the table as it was at [key]. *)
Lemma fold_mapping_other (item_to_supplier : catalog) (m : gmap string string) key :
  (forall k supplier, In (k, supplier) item_to_supplier -> _normalize k <> key) ->
  fold_left (fun m kv => <[_normalize kv.1 := kv.2]> m) item_to_supplier m !! key
  = m !! key.
Proof.
  revert m. induction item_to_supplier as [|[k supplier] rest IH]; intros m Hkeys.
  - reflexivity.
  - cbn [fold_left fst snd]. rewrite IH.
    + apply lookup_insert_ne. apply (Hkeys k supplier). left. reflexivity.
    + intros k' s' Hin. apply (Hkeys k' s'). right. exact Hin.
Qed.

(** A key to which no catalog key normalizes is not in the table. *)
Lemma mapping_lookup_None (item_to_supplier : catalog) key :
  (forall k supplier, In (k, supplier) item_to_supplier -> _normalize k <> key) ->
  _mapping item_to_supplier !! key = None.
Proof.
  intros Hkeys. unfold _mapping.
  rewrite fold_mapping_other by exact Hkeys. apply lookup_empty.
Qed.

(** When the catalog keys have pairwise distinct normal forms, the table
    holds each entry under the normal form of its key. *)
Lemma mapping_lookup_In (item_to_supplier : catalog) key supplier :
  NoDup (List.map (fun kv => _normalize kv.1) item_to_supplier) ->
  In (key, supplier) item_to_supplier ->
  _mapping item_to_supplier !! _normalize key = Some supplier.
Proof.
  unfold _mapping. generalize (∅ : gmap string string).
  induction item_to_supplier as [|[k s] rest IH]; intros m Hnodup Hin.
  - destruct Hin.
  - cbn [List.map fst snd] in Hnodup. apply NoDup_cons in Hnodup as [Hk Hrest].
    cbn [fold_left fst snd]. destruct Hin as [[= -> ->]|Hin].
    + rewrite fold_mapping_other; [apply lookup_insert_eq|].
      intros k' s' Hin' Heq. apply Hk. rewrite <- Heq.
      apply list_elem_of_In.
      apply (in_map (fun kv : string * string => _normalize kv.1) rest (k', s')).
      exact Hin'.
    + apply IH; assumption.
Qed.

(** For any such catalog, an item with the normal form of a catalog key
    gets the supplier of that key, when the supplier's name is not
    empty. *)
Lemma get_supplier_same_normal_form (item_to_supplier : catalog) item key supplier :
  NoDup (List.map (fun kv => _normalize kv.1) item_to_supplier) ->
  In (key, supplier) item_to_supplier ->
  supplier <> EmptyString ->
  _normalize item = _normalize key ->
  get_supplier item_to_supplier item = {| item := item; supplier := supplier |}.
Proof.
  intros Hnodup Hin Hsupplier Hkey.
  unfold get_supplier, _lookup_to_dict, _get_relevant_documents.
  rewrite Hkey, (mapping_lookup_In _ _ _ Hnodup Hin).
  destruct supplier; [contradiction | reflexivity].
Qed.

(** The first look-up decides when it finds a non-empty supplier. *)
Lemma get_supplier_direct item_to_supplier item supplier :
  truthy (_mapping item_to_supplier !! _normalize item) = Some supplier ->
  get_supplier item_to_supplier item = {| item := item; supplier := supplier |}.
Proof.
  intros H. unfold get_supplier, _lookup_to_dict, _get_relevant_documents.
  rewrite H. reflexivity.
Qed.

(** Otherwise the second look-up, under the toggled key, decides. *)
Lemma get_supplier_toggle item_to_supplier item supplier :
  truthy (_mapping item_to_supplier !! _normalize item) = None ->
  truthy (_mapping item_to_supplier !! _alt_normalize (_normalize item))
  = Some supplier ->
  get_supplier item_to_supplier item = {| item := item; supplier := supplier |}.
Proof.
  intros H1 H2. unfold get_supplier, _lookup_to_dict, _get_relevant_documents.
  rewrite H1, H2. reflexivity.
Qed.



(** C10: [get_supplier] is a total function of the item name, with no
    failing case, and for every catalog and every item name that matches
    no catalog key, neither directly nor through the plural toggle, it
    returns the item as passed with the supplier ["Unknown Supplier"]. *)
Theorem get_supplier_unknown (item_to_supplier : catalog) item :
  (forall key supplier,
      In (key, supplier) item_to_supplier ->
      _normalize key <> _normalize item /\
      _normalize key <> _alt_normalize (_normalize item)) ->
  get_supplier item_to_supplier item
  = {| item := item; supplier := "Unknown Supplier" |}.
Proof.
  intros Hkeys.
  unfold get_supplier, _lookup_to_dict, _get_relevant_documents.
  rewrite !mapping_lookup_None; [reflexivity | |];
    intros k supplier Hin; apply (Hkeys k supplier Hin).
Qed.

Lemma get_supplier_unknown_witness :
  (forall key supplier,
      In (key, supplier) Workflow.item_to_supplier ->
      _normalize key <> _normalize "Staplers" /\
      _normalize key <> _alt_normalize (_normalize "Staplers")) /\
  get_supplier Workflow.item_to_supplier "Staplers"
  = {| item := "Staplers"; supplier := "Unknown Supplier" |}.
Proof.
  assert (forall key supplier,
             In (key, supplier) Workflow.item_to_supplier ->
             _normalize key <> _normalize "Staplers" /\
             _normalize key <> _alt_normalize (_normalize "Staplers")) as H.
  { intros key supplier Hin.
    repeat (destruct Hin as [[= <- <-]|Hin];
            [split; vm_compute; discriminate|]).
    destruct Hin. }
  split; [exact H|].
  exact (get_supplier_unknown Workflow.item_to_supplier "Staplers" H).
Defined.

End SupplierLookup.

(** ** The caller's objects *)

Section Frame.
Import Store.

Lemma grows_ret {A} (a : A) : grows (mret a).
Proof. intros h. reflexivity. Qed.

Lemma grows_raise {A} e : grows (@raise A e).
Proof. intros h. reflexivity. Qed.

Lemma grows_alloc o : grows (alloc o).
Proof. intros h. apply prefix_app_r. reflexivity. Qed.

Lemma grows_load l : grows (load l).
Proof. intros h. unfold load. destruct (_ !! _); reflexivity. Qed.

Lemma grows_bind {A B} (m : M A) (f : A -> M B) :
  grows m -> (forall a, grows (f a)) -> grows (m ≫= f).
Proof.
  intros Hm Hf h. unfold mbind, M_bind.
  specialize (Hm h). destruct (m h) as [[a|e] h']; cbn [snd] in *.
  - etrans; [exact Hm | apply Hf].
  - exact Hm.
Qed.

Create HintDb grows.
Hint Resolve grows_ret grows_raise grows_alloc grows_load : grows.

Ltac grows_steps :=
  repeat first
    [ apply grows_bind; [|intros ?]
    | solve [auto with grows]
    | match goal with
      | |- grows (match ?x with _ => _ end) => destruct x
      end ].

Lemma grows_load_dict l : grows (load_dict l).
Proof. unfold load_dict. grows_steps. Qed.

Lemma grows_getitem d key : grows (getitem d key).
Proof. unfold getitem. grows_steps. Qed.

Lemma grows_re_subject v : grows (re_subject v).
Proof. unfold re_subject. grows_steps. Qed.

Lemma grows_str_receiver v : grows (str_receiver v).
Proof. unfold str_receiver. grows_steps. Qed.

Lemma grows_py_int v : grows (py_int v).
Proof. unfold py_int. grows_steps. Qed.

Lemma grows_logs_plus d entry : grows (logs_plus d entry).
Proof. unfold logs_plus. grows_steps. Qed.

Hint Resolve grows_load_dict grows_getitem grows_re_subject
  grows_str_receiver grows_py_int grows_logs_plus : grows.

Lemma grows_intake_node state : grows (intake_node state).
Proof. unfold intake_node. grows_steps. Qed.

Lemma grows_supplier_node catalog state : grows (supplier_node catalog state).
Proof. unfold supplier_node. grows_steps. Qed.

Lemma grows_approval_node threshold state :
  grows (approval_node threshold state).
Proof. unfold approval_node. grows_steps. Qed.

(** A run keeps the store's objects when each stage of the plan does. *)
Lemma grows_run plan :
  Forall (fun nf : string * stage => forall state, grows (nf.2 state)) plan ->
  forall state, grows (run plan state).
Proof.
  induction 1 as [|[name f] rest Hf _ IH]; intros state; cbn [run].
  - apply grows_ret.
  - grows_steps.
Qed.

Lemma grows_invoke plan initial_state :
  Forall (fun nf : string * stage => forall state, grows (nf.2 state)) plan ->
  grows (invoke plan initial_state).
Proof.
  intros Hplan. unfold invoke. grows_steps. apply grows_run. exact Hplan.
Qed.

Lemma compiled_stages_grow :
  Forall (fun nf : string * stage => forall state, grows (nf.2 state))
         (compile build_graph).
Proof.
  repeat constructor; cbn [snd]; intros state.
  - apply grows_intake_node.
  - apply grows_supplier_node.
  - apply grows_approval_node.
Qed.

Lemma val_at_mono h h' v w : h `prefix_of` h' -> val_at h v w -> val_at h' v w.
Proof.
  intros Hh. destruct v, w; cbn; try tauto.
  intros Hl. eapply prefix_lookup_Some; eassumption.
Qed.

Lemma state_at_mono h h' l s :
  h `prefix_of` h' -> state_at h l s -> state_at h' l s.
Proof.
  intros Hh (d & Hd & Hkeys). exists d. split.
  - eapply prefix_lookup_Some; eassumption.
  - intros k. destruct (Hkeys k) as [v w Hvw|]; constructor.
    eapply val_at_mono; eassumption.
Qed.

(** The frame property is not a matter of course: an append in place,
    which no node performs, changes an object of the store. *)
Lemma list_append_changes_the_store :
  ~ grows (list_append 0%nat "entry").
Proof.
  intros H. specialize (H [OList []]). cbn in H.
  destruct H as [ext H]. discriminate H.
Qed.

(** C5: [invoke] never modifies the object passed as [initial_state].
    Whatever the store and the address passed, and whether the run returns
    or raises, every object of the store is after the call what it was
    before; so a dict that read as the state [saved] before the call, a
    copy taken then, reads as [saved] after it. *)
Theorem invoke_keeps_initial_state h initial_state :
  let h' := (invoke (compile build_graph) initial_state h).2 in
  (forall l o, h !! l = Some o -> h' !! l = Some o) /\
  (forall saved, state_at h initial_state saved -> state_at h' initial_state saved).
Proof.
  intros h'.
  assert (h `prefix_of` h') as Hgrow
    by apply (grows_invoke _ _ compiled_stages_grow).
  split.
  - intros l o Hl. eapply prefix_lookup_Some; eassumption.
  - intros saved Hsaved. eapply state_at_mono; eassumption.
Qed.

Lemma caller_store_state :
  state_at caller_store 1%nat (Workflow.initial_state "Order 3 laptops").
Proof.
  eexists. split; [reflexivity|]. intros k.
  unfold Workflow.initial_state. rewrite !lookup_insert.
  repeat case_decide; constructor; reflexivity.
Defined.

Lemma invoke_keeps_initial_state_witness :
  let h' := (invoke (compile build_graph) 1%nat caller_store).2 in
  state_at caller_store 1%nat (Workflow.initial_state "Order 3 laptops") /\
  h' !! 0%nat = Some (OList ["Received request: Order 3 laptops"]) /\
  h' !! 1%nat = caller_store !! 1%nat /\
  state_at h' 1%nat (Workflow.initial_state "Order 3 laptops").
Proof.
  intros h'.
  destruct (invoke_keeps_initial_state caller_store 1%nat) as [Hframe Hsaved].
  split; [exact caller_store_state|].
  split; [apply Hframe; reflexivity|].
  split; [apply Hframe; reflexivity|].
  apply Hsaved. exact caller_store_state.
Defined.

End Frame.

(** ** The run over the store and the run over values agree *)

Section Simulation.
Import Store.

Lemma lookup_alloc (h : heap) o : (h ++ [o])%list !! length h = Some o.
Proof. apply list_lookup_middle. reflexivity. Qed.

Lemma lookup_alloc_old (h : heap) o l x :
  h !! l = Some x -> (h ++ [o])%list !! l = Some x.
Proof. intros H. apply lookup_app_l_Some. exact H. Qed.

Lemma val_at_alloc h o v w : val_at h v w -> val_at (h ++ [o])%list v w.
Proof. apply val_at_mono. apply prefix_app_r. reflexivity. Qed.

Lemma bind_mret {A B} (a : A) (f : A -> M B) h : (mret a ≫= f) h = f a h.
Proof. reflexivity. Qed.

Lemma bind_raise {A B} e (f : A -> M B) h : (raise e ≫= f) h = (Raise e, h).
Proof. reflexivity. Qed.

Lemma bind_run {A B} (m : M A) (f : A -> M B) h :
  (m ≫= f) h
  = match m h with
    | (Ok a, h') => f a h'
    | (Raise e, h') => (Raise e, h')
    end.
Proof. reflexivity. Qed.

Lemma bind_alloc {B} o (f : loc -> M B) h :
  (alloc o ≫= f) h = f (length h) (h ++ [o])%list.
Proof. reflexivity. Qed.

Lemma bind_load {B} l (f : obj -> M B) (h : heap) o :
  h !! l = Some o -> (load l ≫= f) h = f o h.
Proof. intros H. unfold mbind, M_bind, load. rewrite H. reflexivity. Qed.

Lemma bind_load_dict {B} l (f : gmap string hval -> M B) (h : heap) d :
  h !! l = Some (ODict d) -> (load_dict l ≫= f) h = f d h.
Proof.
  intros H. unfold load_dict, mbind, M_bind, load. rewrite H. reflexivity.
Qed.

(** What [logs_plus] does, against [list_add] on the value the key
    [logs] stands for. *)
Lemma logs_plus_agrees h d (s : gmap string value) entry :
  dict_at h d s ->
  match Workflow.list_add (Workflow.get s "logs" (VList [])) entry with
  | Ok items =>
      exists l, (logs_plus d entry h).1 = Ok l /\
                (logs_plus d entry h).2 !! l = Some (OList items)
  | Raise e => (logs_plus d entry h).1 = Raise e
  end.
Proof.
  intros Hkeys. unfold logs_plus, Workflow.get.
  pose proof (Hkeys "logs") as Hlogs.
  inversion Hlogs as [v w Hvw Hd Hs | Hd Hs]; clear Hlogs.
  - destruct v, w; cbn in Hvw; try contradiction; cbn; try reflexivity.
    rewrite !bind_alloc.
    erewrite bind_load by (do 2 apply lookup_alloc_old; exact Hvw).
    eexists. split; [reflexivity|]. apply lookup_alloc.
  - cbn. rewrite !bind_alloc.
    erewrite bind_load by (apply lookup_alloc_old, lookup_alloc).
    eexists. split; [reflexivity|]. apply lookup_alloc.
Qed.


Lemma dict_at_mono h h' d s : h `prefix_of` h' -> dict_at h d s -> dict_at h' d s.
Proof.
  intros Hh Hd k. destruct (Hd k) as [v w Hvw|]; constructor.
  eapply val_at_mono; eassumption.
Qed.

Lemma dict_at_insert h d s k v w :
  dict_at h d s -> val_at h v w -> dict_at h (<[k := v]> d) (<[k := w]> s).
Proof.
  intros Hd Hvw k'. rewrite !lookup_insert.
  case_decide; [constructor; exact Hvw | apply Hd].
Qed.

Lemma dict_at_union h d1 s1 d2 s2 :
  dict_at h d1 s1 -> dict_at h d2 s2 -> dict_at h (d1 ∪ d2) (s1 ∪ s2).
Proof.
  intros H1 H2 k. rewrite !lookup_union.
  destruct (H1 k), (H2 k); constructor; assumption.
Qed.

Lemma state_at_alloc h d s :
  dict_at (h ++ [ODict d])%list d s ->
  state_at (h ++ [ODict d])%list (length h) s.
Proof. intros Hd. exists d. split; [apply lookup_alloc | exact Hd]. Qed.

Lemma bind_logs_plus {B} d entry (f : loc -> M B) h :
  (logs_plus d entry ≫= f) h
  = match (logs_plus d entry h).1 with
    | Ok l => f l (logs_plus d entry h).2
    | Raise e => (Raise e, (logs_plus d entry h).2)
    end.
Proof.
  unfold mbind at 1. unfold M_bind.
  destruct (logs_plus d entry h) as [[l|e] h']; reflexivity.
Qed.

Lemma intake_node_agrees : agrees intake_node Workflow.intake_node.
Proof.
  intros h l s (d & Hl & Hd).
  unfold intake_node, Workflow.intake_node, getitem, Workflow.getitem.
  rewrite (bind_load_dict _ _ _ _ Hl).
  destruct (Hd "original_request") as [v w Hvw|]; [|reflexivity].
  destruct v, w; cbn in Hvw; try contradiction; try reflexivity. subst.
  cbn [mbind result_bind Workflow.re_subject].
  unfold re_subject. rewrite !bind_mret.
  rewrite bind_logs_plus.
  pose proof (logs_plus_agrees h d s
    ("Intake parsed: " ++ IntakeAgent.repr_parsed (IntakeAgent.parse_request s1)) Hd)
    as Hlogs.
  pose proof (grows_logs_plus d
    ("Intake parsed: " ++ IntakeAgent.repr_parsed (IntakeAgent.parse_request s1)) h)
    as Hgrow.
  destruct (Workflow.list_add _ _) as [items|e].
  - destruct Hlogs as (ll & -> & Hll). cbn [mbind result_bind].
    eexists. split; [reflexivity|]. cbn [alloc snd].
    apply state_at_alloc.
    repeat apply dict_at_insert; try reflexivity.
    + eapply dict_at_mono; [|exact Hd]. apply prefix_app_r. exact Hgrow.
    + cbn. apply lookup_alloc_old. exact Hll.
  - rewrite Hlogs. reflexivity.
Qed.

Lemma str_receiver_agrees h v w :
  val_at h v w ->
  match Workflow.str_receiver w with
  | Ok text => str_receiver v = mret text
  | Raise e => str_receiver v = raise e
  end.
Proof.
  destruct v, w; cbn; try contradiction; try (intros ->); reflexivity.
Qed.

Lemma supplier_node_agrees catalog :
  agrees (supplier_node catalog) (Workflow.supplier_node catalog).
Proof.
  intros h l s (d & Hl & Hd).
  unfold supplier_node, Workflow.supplier_node, Workflow.get.
  rewrite (bind_load_dict _ _ _ _ Hl).
  assert (val_at h
            match d !! "item" with Some v => v | None => HStr EmptyString end
            match s !! "item" with Some v => v | None => VStr EmptyString end)
    as Hitem by (destruct (Hd "item"); [assumption | reflexivity]).
  apply str_receiver_agrees in Hitem.
  destruct (Workflow.str_receiver _) as [item|e]; rewrite Hitem; [|reflexivity].
  cbn [mbind result_bind]. rewrite bind_mret, bind_logs_plus.
  set (entry := "Supplier selected: " ++ _).
  pose proof (logs_plus_agrees h d s entry Hd) as Hlogs.
  pose proof (grows_logs_plus d entry h) as Hgrow.
  destruct (Workflow.list_add _ _) as [items|e].
  - destruct Hlogs as (ll & -> & Hll). cbn [mbind result_bind].
    eexists. split; [reflexivity|]. cbn [alloc snd].
    apply state_at_alloc.
    repeat apply dict_at_insert; try reflexivity.
    + eapply dict_at_mono; [|exact Hd]. apply prefix_app_r. exact Hgrow.
    + cbn. apply lookup_alloc_old. exact Hll.
  - rewrite Hlogs. reflexivity.
Qed.

Lemma py_int_agrees h v w :
  val_at h v w ->
  match Workflow.py_int w with
  | Ok n => py_int v = mret n
  | Raise e => py_int v = raise e
  end.
Proof.
  destruct v, w; cbn; try contradiction; try (intros ->); try reflexivity.
  destruct (Workflow.int_of_str s0); reflexivity.
Qed.

Lemma approval_node_agrees threshold :
  agrees (approval_node threshold) (Workflow.approval_node threshold).
Proof.
  intros h l s (d & Hl & Hd).
  unfold approval_node, Workflow.approval_node, Workflow.get.
  rewrite (bind_load_dict _ _ _ _ Hl).
  assert (val_at h match d !! "quantity" with Some v => v | None => HInt 1 end
                   match s !! "quantity" with Some v => v | None => VInt 1 end)
    as Hq by (destruct (Hd "quantity"); [assumption | reflexivity]).
  apply py_int_agrees in Hq.
  destruct (Workflow.py_int _) as [quantity|e]; rewrite Hq; [|reflexivity].
  cbn [mbind result_bind]. rewrite bind_mret, bind_logs_plus.
  set (entry := "Approval decision: " ++ _).
  pose proof (logs_plus_agrees h d s entry Hd) as Hlogs.
  pose proof (grows_logs_plus d entry h) as Hgrow.
  destruct (Workflow.list_add _ _) as [items|e].
  - destruct Hlogs as (ll & -> & Hll). cbn [mbind result_bind].
    eexists. split; [reflexivity|]. cbn [alloc snd].
    apply state_at_alloc.
    repeat apply dict_at_insert; try reflexivity.
    + eapply dict_at_mono; [|exact Hd]. apply prefix_app_r. exact Hgrow.
    + cbn. apply lookup_alloc_old. exact Hll.
  - rewrite Hlogs. reflexivity.
Qed.

(** Plans that agree stage by stage give runs that agree. *)
Lemma run_agrees plan_h plan_p :
  Forall2 (fun (a : string * stage) (b : string * Workflow.stage) =>
             agrees a.2 b.2 /\ forall state, grows (a.2 state))
          plan_h plan_p ->
  forall h l s,
    state_at h l s ->
    match Workflow.run plan_p s with
    | Ok s' => exists l', (run plan_h l h).1 = Ok l' /\
                          state_at (run plan_h l h).2 l' s'
    | Raise e => (run plan_h l h).1 = Raise e
    end.
Proof.
  induction 1 as [|[nh fh] [np fp] rest_h rest_p [Hf Hg] _ IH]; intros h l s Hs.
  - cbn. exists l. split; [reflexivity | exact Hs].
  - cbn [run Workflow.run snd] in *.
    specialize (Hf h l s Hs). specialize (Hg l h).
    rewrite (bind_run (fh l)).
    destruct (fh l h) as [r h1]. cbn [fst snd] in *.
    destruct (fp s) as [s1|e]; cbn [mbind result_bind].
    + destruct Hf as (l1 & -> & Hs1).
      pose proof (state_at_mono _ _ _ _ Hg Hs) as (d & Hl & Hd).
      destruct Hs1 as (d1 & Hl1 & Hd1).
      rewrite (bind_load_dict _ _ _ _ Hl), (bind_load_dict _ _ _ _ Hl1).
      rewrite bind_alloc.
      apply IH. unfold Workflow.merge. apply state_at_alloc.
      eapply dict_at_mono; [apply prefix_app_r; reflexivity|].
      apply dict_at_union; assumption.
    + subst r. reflexivity.
Qed.

(** The run of the compiled graph over the store is the run over values:
    from a dict that reads as [s] it raises what [Workflow.invoke] raises on
    [s], or returns a dict that reads as the state [Workflow.invoke]
    returns. *)
Theorem store_invoke_agrees h initial_state s :
  state_at h initial_state s ->
  match Workflow.invoke app s with
  | Ok final =>
      exists l, (invoke (compile build_graph) initial_state h).1 = Ok l /\
                state_at (invoke (compile build_graph) initial_state h).2 l final
  | Raise e => (invoke (compile build_graph) initial_state h).1 = Raise e
  end.
Proof.
  intros (d & Hl & Hd). unfold invoke, Workflow.invoke.
  rewrite (bind_load_dict _ _ _ _ Hl), bind_alloc.
  apply run_agrees.
  - repeat constructor; cbn [snd].
    + apply intake_node_agrees.
    + apply grows_intake_node.
    + apply supplier_node_agrees.
    + apply grows_supplier_node.
    + apply approval_node_agrees.
    + apply grows_approval_node.
  - apply state_at_alloc.
    eapply dict_at_mono; [apply prefix_app_r; reflexivity | exact Hd].
Qed.

End Simulation.

(** ** More on strings *)

Section MoreStringFacts.
Import PyStr.

Lemma all_chars_app P a b :
  all_chars P (a ++ b) = all_chars P a && all_chars P b.
Proof.
  induction a as [|c r IH]; [reflexivity|].
  change (String c r ++ b) with (String c (r ++ b)).
  cbn [all_chars]. rewrite IH. apply andb_assoc.
Qed.

Lemma all_chars_lstrip P s : all_chars P s = true -> all_chars P (lstrip s) = true.
Proof.
  induction s as [|c r IH]; [reflexivity|]. cbn [lstrip].
  destruct (isspace c); [|exact (fun H => H)].
  cbn [all_chars]. intros H. apply andb_true_iff in H as [_ H]. exact (IH H).
Qed.

Lemma all_chars_rstrip P s : all_chars P s = true -> all_chars P (rstrip s) = true.
Proof.
  induction s as [|c r IH]; [reflexivity|]. cbn [rstrip all_chars].
  intros H. apply andb_true_iff in H as [Hc Hr]. specialize (IH Hr).
  destruct (rstrip r) as [|d r'].
  - destruct (isspace c); [reflexivity|]. cbn. rewrite Hc. reflexivity.
  - cbn [all_chars] in *. rewrite Hc. exact IH.
Qed.

Lemma all_chars_strip P s : all_chars P s = true -> all_chars P (strip s) = true.
Proof. intros H. apply all_chars_rstrip, all_chars_lstrip, H. Qed.

Lemma all_chars_lower P s :
  (forall c, P c = true -> P (lower_char c) = true) ->
  all_chars P s = true -> all_chars P (lower s) = true.
Proof.
  intros HP. induction s as [|c r IH]; [reflexivity|]. cbn [lower all_chars].
  intros H. apply andb_true_iff in H as [Hc Hr].
  rewrite (HP c Hc), (IH Hr). reflexivity.
Qed.

Lemma all_chars_drop_last P s :
  all_chars P s = true -> all_chars P (drop_last s) = true.
Proof.
  induction s as [|c r IH]; [reflexivity|].
  destruct r as [|d r']; [reflexivity|].
  change (drop_last (String c (String d r')))
    with (String c (drop_last (String d r'))).
  cbn [all_chars] in *. intros H. apply andb_true_iff in H as [Hc Hr].
  rewrite Hc. exact (IH Hr).
Qed.







Lemma lower_char_idem c : lower_char (lower_char c) = lower_char c.
Proof. destruct c as [[] [] [] [] [] [] [] []]; reflexivity. Qed.

Lemma lower_idem s : lower (lower s) = lower s.
Proof.
  induction s as [|c r IH]; [reflexivity|]. cbn [lower].
  rewrite lower_char_idem, IH. reflexivity.
Qed.



(** *** Trimming *)

Lemma lstrip_starts_clean s : starts_clean (lstrip s) = true.
Proof.
  induction s as [|c r IH]; [reflexivity|]. cbn [lstrip].
  destruct (isspace c) eqn:Hc; [exact IH|]. cbn. rewrite Hc. reflexivity.
Qed.

Lemma lstrip_clean s : starts_clean s = true -> lstrip s = s.
Proof.
  destruct s as [|c r]; [reflexivity|]. cbn.
  destruct (isspace c); [discriminate | reflexivity].
Qed.

Lemma rstrip_starts_clean s : starts_clean s = true -> starts_clean (rstrip s) = true.
Proof.
  destruct s as [|c r]; [reflexivity|]. cbn [starts_clean rstrip].
  intros Hc. destruct (rstrip r); [|exact Hc].
  destruct (isspace c) eqn:E; [reflexivity|]. cbn. rewrite E. reflexivity.
Qed.

Lemma rstrip_cons c r :
  rstrip (String c r)
  = match rstrip r with
    | EmptyString => if isspace c then EmptyString else String c EmptyString
    | r' => String c r'
    end.
Proof. reflexivity. Qed.

Lemma rstrip_idem s : rstrip (rstrip s) = rstrip s.
Proof.
  induction s as [|c r IH]; [reflexivity|]. rewrite rstrip_cons.
  destruct (rstrip r) as [|d r'] eqn:Hr.
  - destruct (isspace c) eqn:Hc; [reflexivity|]. cbn. rewrite Hc. reflexivity.
  - rewrite rstrip_cons, IH. reflexivity.
Qed.

Lemma strip_idem s : strip (strip s) = strip s.
Proof.
  unfold strip.
  rewrite (lstrip_clean (rstrip (lstrip s)))
    by apply rstrip_starts_clean, lstrip_starts_clean.
  apply rstrip_idem.
Qed.

Lemma strip_lower_strip s : strip (lower (strip s)) = lower (strip s).
Proof. rewrite <- lower_strip, strip_idem. reflexivity. Qed.

Lemma strip_no_space s : all_chars not_space s = true -> strip s = s.
Proof.
  intros H. unfold strip.
  assert (lstrip s = s) as ->.
  { destruct s as [|c r]; [reflexivity|]. cbn in *.
    apply andb_true_iff in H as [Hc _]. unfold not_space in Hc.
    apply negb_true_iff in Hc. rewrite Hc. reflexivity. }
  induction s as [|c r IH]; [reflexivity|]. rewrite rstrip_cons.
  cbn [all_chars] in H. apply andb_true_iff in H as [Hc Hr]. rewrite (IH Hr).
  destruct r; [|reflexivity].
  unfold not_space in Hc. apply negb_true_iff in Hc. rewrite Hc. reflexivity.
Qed.

End MoreStringFacts.

(** ** The intake agent *)

Section IntakeFacts.
Import PyStr IntakeAgent.

Lemma int_of_digits_nonneg acc ds : 0 <= acc -> 0 <= int_of_digits acc ds.
Proof.
  revert acc. induction ds as [|c r IH]; intros acc Hacc; [exact Hacc|].
  cbn [int_of_digits]. apply IH. unfold digit_value. lia.
Qed.

(** X1: the quantity parsed from a request is never negative, whatever
    the request; a minus sign before the number is not part of the match. *)
Theorem extract_quantity_nonneg request : 0 <= _extract_quantity request.
Proof.
  unfold _extract_quantity. destruct (Re.search_digits request); [|lia].
  apply int_of_digits_nonneg. lia.
Qed.

Lemma drop_while_all cls s :
  all_chars cls s = true -> Re.drop_while cls s = EmptyString.
Proof.
  induction s as [|c r IH]; [reflexivity|]. cbn [all_chars].
  intros H. apply andb_true_iff in H as [Hc Hr].
  cbn [Re.drop_while]. rewrite Hc. exact (IH Hr).
Qed.



(** X2: a request without any digit gets the default quantity 1. *)
Theorem extract_quantity_default request :
  all_chars not_digit request = true -> _extract_quantity request = 1.
Proof.
  intros H. unfold _extract_quantity, Re.search_digits.
  change (fun c : ascii => negb (isdigit c)) with not_digit.
  rewrite (drop_while_all _ _ H). reflexivity.
Qed.

Lemma extract_quantity_default_witness :
  all_chars not_digit "Order some laptops" = true /\
  _extract_quantity "Order some laptops" = 1.
Proof.
  split; [reflexivity|].
  apply (extract_quantity_default "Order some laptops"). reflexivity.
Defined.




(** *** Printing a quantity and parsing it back *)










(** *** The item *)




(** X6: for a quantity other than one and zero the item has no white
    space at its ends. *)
Theorem extract_item_trimmed request quantity :
  quantity <> 0 -> quantity <> 1 ->
  strip (_extract_item request quantity) = _extract_item request quantity.
Proof.
  intros H0 H1. unfold _extract_item, or_one. cbv zeta.
  destruct (Z.eqb_spec quantity 0) as [?|_]; [contradiction|].
  destruct (Z.eqb_spec quantity 1) as [?|_]; [contradiction|].
  apply strip_lower_strip.
Qed.

Lemma extract_item_trimmed_witness :
  3 <> 0 /\ 3 <> 1 /\
  strip (_extract_item "  Order 3 Laptops  " 3) = _extract_item "  Order 3 Laptops  " 3.
Proof.
  assert (3 <> 0) as H0 by lia. assert (3 <> 1) as H1 by lia.
  split; [exact H0|]. split; [exact H1|].
  exact (extract_item_trimmed "  Order 3 Laptops  " 3 H0 H1).
Defined.

(** X7: for the quantity one, and for zero, which counts as one, the item
    never ends in a single [s]: a plural-looking item has lost it. *)
Theorem extract_item_singular request quantity :
  quantity = 1 \/ quantity = 0 ->
  plural_like (_extract_item request quantity) = false.
Proof.
  intros Hq. unfold _extract_item. cbv zeta.
  assert ((or_one quantity =? 1) = true) as ->
    by (destruct Hq as [-> | ->]; reflexivity).
  set (cleaned := lower _).
  destruct (plural_like cleaned) eqn:H; [apply plural_like_drop_last|]; exact H.
Qed.

Lemma extract_item_singular_witness :
  (0 = 1 \/ 0 = 0) /\ plural_like (_extract_item "Order 0 laptops" 0) = false.
Proof.
  assert (0 = 1 \/ 0 = 0) as Hq by (right; reflexivity).
  split; [exact Hq|]. exact (extract_item_singular "Order 0 laptops" 0 Hq).
Defined.

End IntakeFacts.

(** ** The supplier agent *)

Section SupplierFacts.
Import PyStr SupplierAgent.

Lemma normalize_lower text : _normalize (lower text) = _normalize text.
Proof. unfold _normalize. rewrite <- lower_strip, lower_idem. reflexivity. Qed.

Lemma normalize_strip text : _normalize (strip text) = _normalize text.
Proof. unfold _normalize. rewrite strip_idem. reflexivity. Qed.

(** The supplier found for an item depends on the item through its normal
    form only. *)
Lemma supplier_by_normal_form (item_to_supplier : catalog) a b :
  _normalize a = _normalize b ->
  supplier (get_supplier item_to_supplier a)
  = supplier (get_supplier item_to_supplier b).
Proof.
  intros H. unfold get_supplier, _lookup_to_dict, _get_relevant_documents.
  rewrite H.
  destruct (truthy (_ !! _normalize b)); [reflexivity|].
  destruct (truthy (_ !! _alt_normalize (_normalize b))); reflexivity.
Qed.

(** X8: the look-up does not see the case of the letters or the white
    space around the name: for every catalog, an item, its lower-case form
    and its trimmed form get the same supplier. *)
Theorem get_supplier_ignores_case_and_margin (item_to_supplier : catalog) item :
  supplier (get_supplier item_to_supplier (lower item))
  = supplier (get_supplier item_to_supplier item) /\
  supplier (get_supplier item_to_supplier (strip item))
  = supplier (get_supplier item_to_supplier item).
Proof.
  split; apply supplier_by_normal_form;
    [apply normalize_lower | apply normalize_strip].
Qed.

(** *** Plural and singular *)










(** *** What the look-up can return *)

(** A supplier found in the table belongs to a catalog entry whose key
    normalizes to the key looked up. *)
Lemma mapping_lookup_Some (item_to_supplier : catalog) key supplier :
  _mapping item_to_supplier !! key = Some supplier ->
  exists k, In (k, supplier) item_to_supplier /\ _normalize k = key.
Proof.
  unfold _mapping.
  assert (forall (m : gmap string string),
             fold_left (fun m kv => <[_normalize kv.1 := kv.2]> m)
                       item_to_supplier m !! key = Some supplier ->
             m !! key = Some supplier
             \/ exists k, In (k, supplier) item_to_supplier /\ _normalize k = key)
    as H.
  { induction item_to_supplier as [|[k s] rest IH]; intros m Hm.
    - left. exact Hm.
    - cbn [fold_left fst snd] in Hm. destruct (IH _ Hm) as [Hins|(k' & Hin & Hk')].
      + rewrite lookup_insert in Hins. case_decide as Hk.
        * injection Hins as ->. right. exists k. split; [left; reflexivity | exact Hk].
        * left. exact Hins.
      + right. exists k'. split; [right; exact Hin | exact Hk']. }
  intros Hm. destruct (H ∅ Hm) as [Hempty|Hin]; [|exact Hin].
  rewrite lookup_empty in Hempty. discriminate Hempty.
Qed.

Lemma truthy_Some o supplier :
  truthy o = Some supplier -> o = Some supplier /\ supplier <> EmptyString.
Proof.
  destruct o as [[|c r]|]; cbn; intros [= <-]. split; [reflexivity | discriminate].
Qed.

(** X10: whatever the catalog and the item, [get_supplier] hands the item
    back unchanged, and the supplier it names is never the empty text: it
    is ["Unknown Supplier"], or the supplier of a catalog entry whose key
    has the normal form of the item, or that normal form followed by
    [s]. *)
Theorem get_supplier_result (item_to_supplier : catalog) name :
  item (get_supplier item_to_supplier name) = name /\
  supplier (get_supplier item_to_supplier name) <> EmptyString /\
  (supplier (get_supplier item_to_supplier name) = "Unknown Supplier"
   \/ exists key,
        In (key, supplier (get_supplier item_to_supplier name)) item_to_supplier /\
        (_normalize key = _normalize name
         \/ _normalize key = _normalize name ++ "s")).
Proof.
  split; [reflexivity|].
  unfold get_supplier, _lookup_to_dict, _get_relevant_documents.
  rewrite alt_normalize_normalize.
  destruct (truthy (_ !! _normalize name)) as [s|] eqn:H1.
  - apply truthy_Some in H1 as [H1 Hs]. cbn. split; [exact Hs|]. right.
    apply mapping_lookup_Some in H1 as (key & Hin & Hkey).
    exists key. split; [exact Hin | left; exact Hkey].
  - destruct (truthy (_ !! (_normalize name ++ "s"))) as [s|] eqn:H2.
    + apply truthy_Some in H2 as [H2 Hs]. cbn. split; [exact Hs|]. right.
      apply mapping_lookup_Some in H2 as (key & Hin & Hkey).
      exists key. split; [exact Hin | right; exact Hkey].
    + cbn. split; [discriminate | left; reflexivity].
Qed.

(** X11: the retriever returns at most one document, and a document it
    returns carries the query as it was passed and a supplier name that is
    not empty. *)
Theorem retriever_documents (m : gmap string string) query :
  (length (_get_relevant_documents m query) <= 1)%nat /\
  forall d, In d (_get_relevant_documents m query) ->
            metadata_item d = query /\ page_content d <> EmptyString.
Proof.
  unfold _get_relevant_documents.
  destruct (truthy (m !! _normalize query)) as [s|] eqn:H1.
  - apply truthy_Some in H1 as [_ Hs]. split; [cbn; lia|].
    intros d [<-|[]]. split; [reflexivity | exact Hs].
  - destruct (truthy (m !! _alt_normalize (_normalize query))) as [s|] eqn:H2.
    + apply truthy_Some in H2 as [_ Hs]. split; [cbn; lia|].
      intros d [<-|[]]. split; [reflexivity | exact Hs].
    + split; [cbn; lia | intros d []].
Qed.

Lemma retriever_documents_witness :
  In {| page_content := "Acme Computers"; metadata_item := " Laptops " |}
     (_get_relevant_documents (_mapping Workflow.item_to_supplier) " Laptops ") /\
  metadata_item {| page_content := "Acme Computers"; metadata_item := " Laptops " |} = " Laptops ".
Proof.
  assert (In {| page_content := "Acme Computers"; metadata_item := " Laptops " |}
             (_get_relevant_documents (_mapping Workflow.item_to_supplier) " Laptops "))
    as Hin by (vm_compute; left; reflexivity).
  split; [exact Hin|].
  exact (proj1 (proj2 (retriever_documents _ _) _ Hin)).
Defined.

(** *** Several keys with one normal form *)

Lemma mapping_app (item_to_supplier : catalog) key supplier :
  _mapping (item_to_supplier ++ [(key, supplier)])%list
  = <[_normalize key := supplier]> (_mapping item_to_supplier).
Proof. unfold _mapping. rewrite fold_left_app. reflexivity. Qed.

(** X12: when two catalog keys have the same normal form the later entry
    decides: an entry added after the others, with a supplier name that is
    not empty, is the one found for every item with the normal form of its
    key, whatever the entries before it say. *)
Theorem get_supplier_last_entry_wins (item_to_supplier : catalog) key supplier name :
  supplier <> EmptyString ->
  _normalize name = _normalize key ->
  get_supplier (item_to_supplier ++ [(key, supplier)])%list name
  = {| item := name; supplier := supplier |}.
Proof.
  intros Hs Hname. apply get_supplier_direct.
  rewrite mapping_app, Hname, lookup_insert_eq.
  destruct supplier; [contradiction | reflexivity].
Qed.

Lemma get_supplier_last_entry_wins_witness :
  "Chairs R Us" <> EmptyString /\
  _normalize "chair" = _normalize "Chairs" /\
  get_supplier ([("chair", "OfficeCo")] ++ [("Chairs", "Chairs R Us")])%list "chair"
  = {| item := "chair"; supplier := "Chairs R Us" |}.
Proof.
  assert ("Chairs R Us" <> EmptyString) as Hs by discriminate.
  split; [exact Hs|]. split; [reflexivity|].
  exact (get_supplier_last_entry_wins
           [("chair", "OfficeCo")] "Chairs" "Chairs R Us" "chair" Hs eq_refl).
Defined.

(** *** Normalizing twice *)

Lemma all_chars_not_space_lower s :
  all_chars not_space s = true -> all_chars not_space (lower s) = true.
Proof.
  apply all_chars_lower. intros c. unfold not_space.
  rewrite isspace_lower_char. exact (fun H => H).
Qed.

(** X13: a name without white space is normalized in one step:
    normalizing the result again gives the same text.  (With white space
    inside this fails: ["a s"] gives ["a "], which gives ["a"].) *)
Theorem normalize_idempotent text :
  all_chars not_space text = true ->
  _normalize (_normalize text) = _normalize text.
Proof.
  intros H.
  assert (all_chars not_space (_normalize text) = true) as Hn.
  { unfold _normalize. rewrite (strip_no_space _ H).
    destruct (plural_like _); [apply all_chars_drop_last|];
      apply all_chars_not_space_lower, H. }
  assert (lower (_normalize text) = _normalize text) as Hl.
  { unfold _normalize.
    destruct (plural_like _); [|apply lower_idem].
    generalize (strip text). intros s.
    induction s as [|c r IH]; [reflexivity|]. cbn [lower].
    destruct r as [|d r']; [reflexivity|].
    change (lower (String d r')) with (String (lower_char d) (lower r')) in *.
    change (drop_last (String (lower_char c) (String (lower_char d) (lower r'))))
      with (String (lower_char c) (drop_last (String (lower_char d) (lower r')))).
    cbn [lower]. rewrite lower_char_idem, IH. reflexivity. }
  unfold _normalize at 1.
  rewrite (strip_no_space _ Hn), Hl, plural_like_normalize. reflexivity.
Qed.

Lemma normalize_idempotent_witness :
  all_chars not_space "Laptops" = true /\
  _normalize (_normalize "Laptops") = _normalize "Laptops".
Proof.
  split; [reflexivity|]. exact (normalize_idempotent "Laptops" eq_refl).
Defined.

Example normalize_twice_with_inner_space :
  _normalize "a s" = "a " /\ _normalize (_normalize "a s") = "a".
Proof. split; reflexivity. Qed.

End SupplierFacts.

(** ** The approval agent *)

Section ApprovalFacts.
Import PyStr ApprovalAgent.





End ApprovalFacts.

(** ** The nodes, called on their own *)

Section NodeFacts.
Import Workflow.

(** X15: what [intake_node] does to a state when it returns: the state
    has a text under [original_request]; the result holds the item and the
    quantity parsed from it, the logs of the state (none, when the key is
    missing) followed by one entry, and every other key as it was. *)
Theorem intake_node_writes state state' :
  intake_node state = Ok state' ->
  exists request logs,
    state !! "original_request" = Some (VStr request) /\
    get state "logs" (VList []) = VList logs /\
    state' !! "item" = Some (VStr (IntakeAgent.item (IntakeAgent.parse_request request))) /\
    state' !! "quantity"
    = Some (VInt (IntakeAgent.quantity (IntakeAgent.parse_request request))) /\
    state' !! "logs"
    = Some (VList (logs ++ [("Intake parsed: "
                             ++ IntakeAgent.repr_parsed
                                  (IntakeAgent.parse_request request))%string])) /\
    forall key, key <> "item" -> key <> "quantity" -> key <> "logs" ->
                state' !! key = state !! key.
Proof.
  unfold intake_node, getitem.
  destruct (state !! "original_request") as [[request| | |]|] eqn:Hreq;
    cbn [mbind result_bind re_subject]; try discriminate.
  destruct (get state "logs" (VList [])) as [| | |logs] eqn:Hlogs;
    cbn [mbind result_bind list_add]; try discriminate.
  intros [= <-]. exists request, logs.
  split; [reflexivity|]. split; [reflexivity|].
  split; [rewrite !lookup_insert_ne by done; apply lookup_insert_eq|].
  split; [rewrite lookup_insert_ne by done; apply lookup_insert_eq|].
  split; [apply lookup_insert_eq|].
  intros key H1 H2 H3. rewrite !lookup_insert_ne by congruence. reflexivity.
Qed.

Lemma intake_node_writes_witness :
  intake_node (request_only "Buy 1 Desks")
  = Ok (<["logs" := VList ["Intake parsed: {'item': 'desk', 'quantity': 1, 'raw_request': 'Buy 1 Desks'}"]]>
         (<["quantity" := VInt 1]>
           (<["item" := VStr "desk"]> (request_only "Buy 1 Desks")))) /\
  exists state',
    intake_node (request_only "Buy 1 Desks") = Ok state' /\
    state' !! "item" = Some (VStr "desk") /\
    state' !! "original_request" = Some (VStr "Buy 1 Desks").
Proof.
  assert (intake_node (request_only "Buy 1 Desks")
          = Ok (<["logs" := VList ["Intake parsed: {'item': 'desk', 'quantity': 1, 'raw_request': 'Buy 1 Desks'}"]]>
                 (<["quantity" := VInt 1]>
                   (<["item" := VStr "desk"]> (request_only "Buy 1 Desks")))))
    as Hrun by (vm_compute; reflexivity).
  split; [exact Hrun|]. eexists. split; [exact Hrun|].
  destruct (intake_node_writes _ _ Hrun)
    as (request & logs & Hreq & _ & Hitem & _ & _ & Hother).
  unfold request_only in Hreq. rewrite lookup_singleton_eq in Hreq.
  injection Hreq as <-.
  split; [exact Hitem|].
  rewrite Hother by discriminate. apply lookup_singleton_eq.
Defined.

(** X16: [intake_node] raises a [KeyError] exactly when the state has no
    [original_request], and the error names that key. *)
Theorem intake_node_KeyError state key :
  intake_node state = Raise (KeyError key)
  <-> key = "original_request" /\ state !! "original_request" = None.
Proof.
  unfold intake_node, getitem. split.
  - destruct (state !! "original_request") as [[request| | |]|];
      cbn [mbind result_bind re_subject]; try discriminate.
    + destruct (get state "logs" (VList [])) as [| | |logs];
        cbn [mbind result_bind list_add]; discriminate.
    + intros [= <-]. split; reflexivity.
  - intros [-> ->]. reflexivity.
Qed.

Lemma intake_node_KeyError_witness :
  (∅ : WorkflowState) !! "original_request" = None /\
  intake_node ∅ = Raise (KeyError "original_request").
Proof.
  split; [reflexivity|].
  apply (proj2 (intake_node_KeyError ∅ "original_request")).
  split; reflexivity.
Defined.

(** X17: what [supplier_node] does to a state when it returns: the item
    looked up is the text under [item], or the empty text when the key is
    missing; the result holds the supplier found for it, the logs followed
    by one entry, and every other key as it was. *)
Theorem supplier_node_writes catalog state state' :
  supplier_node catalog state = Ok state' ->
  exists item logs,
    get state "item" (VStr EmptyString) = VStr item /\
    get state "logs" (VList []) = VList logs /\
    state' !! "supplier"
    = Some (VStr (SupplierAgent.supplier (SupplierAgent.get_supplier catalog item))) /\
    state' !! "logs"
    = Some (VList (logs ++ [("Supplier selected: "
                             ++ SupplierAgent.repr_lookup
                                  (SupplierAgent.get_supplier catalog item))%string])) /\
    forall key, key <> "supplier" -> key <> "logs" -> state' !! key = state !! key.
Proof.
  unfold supplier_node.
  destruct (get state "item" (VStr EmptyString)) as [item| | |] eqn:Hitem;
    cbn [mbind result_bind str_receiver]; try discriminate.
  destruct (get state "logs" (VList [])) as [| | |logs] eqn:Hlogs;
    cbn [mbind result_bind list_add]; try discriminate.
  intros [= <-]. exists item, logs.
  split; [reflexivity|]. split; [reflexivity|].
  split; [rewrite lookup_insert_ne by done; apply lookup_insert_eq|].
  split; [apply lookup_insert_eq|].
  intros key H1 H2. rewrite !lookup_insert_ne by congruence. reflexivity.
Qed.

Lemma supplier_node_writes_witness :
  exists state',
    supplier_node item_to_supplier (request_only "Order 3 laptops") = Ok state' /\
    state' !! "supplier" = Some (VStr "Unknown Supplier") /\
    state' !! "original_request" = Some (VStr "Order 3 laptops").
Proof.
  assert (exists state',
             supplier_node item_to_supplier (request_only "Order 3 laptops")
             = Ok state') as [state' Hrun]
    by (eexists; vm_compute; reflexivity).
  exists state'. split; [exact Hrun|].
  destruct (supplier_node_writes _ _ _ Hrun)
    as (item & logs & Hitem & _ & Hsupplier & _ & Hother).
  unfold get, request_only in Hitem.
  rewrite lookup_singleton_ne in Hitem by done. injection Hitem as <-.
  split; [exact Hsupplier|].
  rewrite Hother by discriminate. apply lookup_singleton_eq.
Defined.

(** X18: what [approval_node] does to a state when it returns: the
    quantity judged is [int(...)] of the value under [quantity], or 1 when
    the key is missing; the result holds the decision for it, approved
    exactly when it does not exceed the threshold, the logs followed by one
    entry, and every other key as it was. *)
Theorem approval_node_writes threshold state state' :
  approval_node threshold state = Ok state' ->
  exists quantity logs,
    py_int (get state "quantity" (VInt 1)) = Ok quantity /\
    get state "logs" (VList []) = VList logs /\
    state' !! "approved" = Some (VBool (quantity <=? threshold)) /\
    state' !! "reason"
    = Some (VStr (ApprovalAgent.reason (ApprovalAgent.decide threshold quantity))) /\
    state' !! "logs"
    = Some (VList (logs ++ [("Approval decision: "
                             ++ ApprovalAgent.repr_decision
                                  (ApprovalAgent.decide threshold quantity))%string])) /\
    forall key, key <> "approved" -> key <> "reason" -> key <> "logs" ->
                state' !! key = state !! key.
Proof.
  unfold approval_node.
  destruct (py_int (get state "quantity" (VInt 1))) as [quantity|e] eqn:Hq;
    cbn [mbind result_bind]; try discriminate.
  destruct (get state "logs" (VList [])) as [| | |logs] eqn:Hlogs;
    cbn [mbind result_bind list_add]; try discriminate.
  intros [= <-]. exists quantity, logs.
  split; [reflexivity|]. split; [reflexivity|].
  split.
  { rewrite !lookup_insert_ne by done. rewrite lookup_insert_eq.
    unfold ApprovalAgent.decide, ApprovalAgent._decide_to_dict.
    destruct (quantity <=? threshold); reflexivity. }
  split; [rewrite lookup_insert_ne by done; apply lookup_insert_eq|].
  split; [apply lookup_insert_eq|].
  intros key H1 H2 H3. rewrite !lookup_insert_ne by congruence. reflexivity.
Qed.

Lemma approval_node_writes_witness :
  exists state',
    approval_node 5 (request_only "Order 3 laptops") = Ok state' /\
    state' !! "approved" = Some (VBool true) /\
    state' !! "original_request" = Some (VStr "Order 3 laptops").
Proof.
  assert (exists state',
             approval_node 5 (request_only "Order 3 laptops") = Ok state')
    as [state' Hrun] by (eexists; vm_compute; reflexivity).
  exists state'. split; [exact Hrun|].
  destruct (approval_node_writes _ _ _ Hrun)
    as (quantity & logs & Hq & _ & Happroved & _ & _ & Hother).
  unfold get, request_only in Hq.
  rewrite lookup_singleton_ne in Hq by done. injection Hq as <-.
  split; [exact Happroved|].
  rewrite Hother by discriminate. apply lookup_singleton_eq.
Defined.

End NodeFacts.

(** ** The driver, for every request and every file *)

Section DriverFacts.
Import PyStr Workflow.

(** X19: [run_demo] returns for every request, and the dict it returns
    holds the request as given, the quantity and the item parsed from it,
    the supplier found for that item in the catalog of the graph, the
    approval, which is granted exactly when the quantity is at most 5, and
    four log entries: the one [run_demo] writes and one per node. *)
Theorem run_demo_result request :
  exists out final,
    run_demo request = (out, Ok final) /\
    final !! "original_request" = Some (VStr request) /\
    final !! "quantity" = Some (VInt (IntakeAgent._extract_quantity request)) /\
    final !! "item"
    = Some (VStr (IntakeAgent._extract_item request
                    (IntakeAgent._extract_quantity request))) /\
    final !! "supplier"
    = Some (VStr (SupplierAgent.supplier
                    (SupplierAgent.get_supplier item_to_supplier
                       (IntakeAgent._extract_item request
                          (IntakeAgent._extract_quantity request))))) /\
    final !! "approved"
    = Some (VBool (IntakeAgent._extract_quantity request <=? 5)) /\
    final !! "logs"
    = Some (VList (("Received request: " ++ request)%string :: stage_entries request)).
Proof.
  destruct (run_demo_returns request) as [out Hrun].
  exists out. eexists. split; [exact Hrun|].
  unfold final_state_of, initial_state. cbv zeta.
  repeat split;
    repeat (rewrite lookup_insert_ne by done); rewrite lookup_insert_eq;
    try reflexivity.
  unfold ApprovalAgent.decide, ApprovalAgent._decide_to_dict,
    IntakeAgent.parse_request, IntakeAgent._parse_to_dict,
    max_auto_approve_quantity. cbn [IntakeAgent.quantity].
  destruct (_ <=? 5); reflexivity.
Qed.

(** X20: what [run_demo] prints, for every request: the trace heading,
    one line per log entry, the outcome heading, and the five outcome
    lines with the item, the quantity, the supplier, [True] or [False] for
    the approval and the reason. *)
Theorem run_demo_prints request :
  let quantity := IntakeAgent._extract_quantity request in
  let item := IntakeAgent._extract_item request quantity in
  (run_demo request).1
  = ([ (nl ++ "=== Procurement Workflow Trace ===")%string;
       ("- Received request: " ++ request)%string ]
     ++ List.map (fun entry => ("- " ++ entry)%string) (stage_entries request)
     ++ [ (nl ++ "=== Final Outcome ===")%string;
          ("Item: " ++ item)%string;
          ("Quantity: " ++ str_of_int quantity)%string;
          ("Supplier: "
           ++ SupplierAgent.supplier
                (SupplierAgent.get_supplier item_to_supplier item))%string;
          ("Approved: " ++ str_of_bool (quantity <=? 5)%Z)%string;
          ("Reason: "
           ++ ApprovalAgent.reason (ApprovalAgent.decide 5 quantity))%string ])%list.
Proof.
  intros quantity item.
  unfold run_demo. fold app. rewrite invoke_initial_state.
  unfold report, get. rewrite final_state_of_logs. cbn [iterate fst].
  unfold final_state_of, initial_state. cbv zeta.
  repeat (rewrite lookup_insert_ne by done; try rewrite lookup_insert_eq).
  cbn [str_of_get List.map List.app].
  change (IntakeAgent.quantity (IntakeAgent.parse_request request)) with quantity.
  change (IntakeAgent.item (IntakeAgent.parse_request request)) with item.
  change max_auto_approve_quantity with 5.
  unfold ApprovalAgent.decide at 1, ApprovalAgent._decide_to_dict at 1.
  destruct (quantity <=? 5); reflexivity.
Qed.

(** *** The loop over the lines of the file *)

Lemma process_outputs lines :
  process lines
  = (concat (List.map (fun req => (run_demo req).1) lines), None).
Proof.
  induction lines as [|req rest IH]; [reflexivity|].
  cbn [process List.map concat]. rewrite IH.
  destruct (run_demo_returns req) as [out ->]. reflexivity.
Qed.

(** X21: with a readable file [main] processes every request line, in
    the order of the file: what it prints is what [run_demo] prints for the
    first line, then for the second, and so on, and it ends without an
    exception. *)
Theorem main_on_text text :
  main (FileText text)
  = (concat (List.map (fun req => (run_demo req).1) (request_lines text)), None).
Proof. apply process_outputs. Qed.

Lemma split_lines_nonempty text : split_lines text <> [].
Proof.
  destruct text as [|c r]; [discriminate|]. cbn [split_lines].
  destruct (split_lines r); [discriminate|].
  destruct (is_newline c); discriminate.
Qed.

Lemma split_lines_chars P text :
  all_chars P text = true -> Forall (fun line => all_chars P line = true) (split_lines text).
Proof.
  induction text as [|c r IH]; [repeat constructor|].
  cbn [all_chars split_lines]. intros H. apply andb_true_iff in H as [Hc Hr].
  specialize (IH Hr). destruct (split_lines r) as [|line rest].
  - repeat constructor. cbn. rewrite Hc. reflexivity.
  - apply Forall_cons in IH as [Hline Hrest].
    destruct (is_newline c); repeat constructor; try assumption.
    cbn. rewrite Hc. exact Hline.
Qed.

Lemma split_lines_no_newline text :
  Forall (fun line => all_chars not_newline line = true) (split_lines text).
Proof.
  induction text as [|c r IH]; [repeat constructor|]. cbn [split_lines].
  destruct (split_lines r) as [|line rest] eqn:E;
    [exfalso; exact (split_lines_nonempty r E)|].
  apply Forall_cons in IH as [Hline Hrest].
  destruct (is_newline c) eqn:Hc; repeat constructor; try assumption.
  cbn [all_chars]. unfold not_newline at 1. rewrite Hc. exact Hline.
Qed.

(** X22: every request line [main] takes from a file is not empty, has no
    white space at its ends, and holds no line end: a request never spans
    two lines and a blank line is never a request. *)
Theorem request_lines_clean text line :
  In line (request_lines text) ->
  line <> EmptyString /\ strip line = line /\ all_chars not_newline line = true.
Proof.
  unfold request_lines. intros Hin.
  apply filter_In in Hin as [Hin Hne]. apply in_map_iff in Hin as (raw & <- & Hraw).
  split; [intros E; rewrite E in Hne; discriminate Hne|].
  split; [apply strip_idem|]. apply all_chars_strip.
  pose proof (split_lines_no_newline text) as Hall.
  rewrite List.Forall_forall in Hall. apply Hall, Hraw.
Qed.

Lemma request_lines_clean_witness :
  In "buy 1 desk" (request_lines ("Order 3 laptops" ++ nl ++ "  buy 1 desk ")) /\
  strip "buy 1 desk" = "buy 1 desk".
Proof.
  assert (In "buy 1 desk"
            (request_lines ("Order 3 laptops" ++ nl ++ "  buy 1 desk "))) as Hin
    by (vm_compute; right; left; reflexivity).
  split; [exact Hin|].
  exact (proj1 (proj2 (request_lines_clean _ _ Hin))).
Defined.

Lemma lstrip_all_space text : all_chars isspace text = true -> lstrip text = EmptyString.
Proof.
  induction text as [|c r IH]; [reflexivity|]. cbn [all_chars lstrip].
  intros H. apply andb_true_iff in H as [-> Hr]. exact (IH Hr).
Qed.

Lemma request_lines_blank text :
  all_chars isspace text = true -> request_lines text = [].
Proof.
  intros H. unfold request_lines.
  pose proof (split_lines_chars _ _ H) as Hall.
  induction Hall as [|line rest Hline _ IH]; [reflexivity|].
  cbn [List.map List.filter]. unfold strip at 1.
  rewrite (lstrip_all_space _ Hline). exact IH.
Qed.

(** X23: a file that exists but holds only white space, or nothing at
    all, gives no request: [main] prints nothing and ends without an
    exception; the sample request is for a missing file only. *)
Theorem main_blank_file text :
  all_chars isspace text = true -> main (FileText text) = ([], None).
Proof. intros H. cbn [main]. rewrite (request_lines_blank _ H). reflexivity. Qed.

Lemma main_blank_file_witness :
  all_chars isspace (" " ++ nl ++ nl ++ "  ") = true /\
  main (FileText (" " ++ nl ++ nl ++ "  ")) = ([], None).
Proof.
  split; [reflexivity|].
  exact (main_blank_file (" " ++ nl ++ nl ++ "  ") eq_refl).
Defined.

Lemma split_lines_app a c b :
  is_newline c = true ->
  split_lines (a ++ String c b) = (split_lines a ++ split_lines b)%list.
Proof.
  intros Hc. induction a as [|d r IH].
  - change (EmptyString ++ String c b) with (String c b).
    cbn [split_lines]. rewrite Hc.
    destruct (split_lines b) eqn:E; [exfalso; exact (split_lines_nonempty b E)|].
    reflexivity.
  - change (String d r ++ String c b) with (String d (r ++ String c b)).
    cbn [split_lines]. rewrite IH.
    destruct (split_lines r) eqn:E; [exfalso; exact (split_lines_nonempty r E)|].
    cbn [List.app]. destruct (is_newline d); reflexivity.
Qed.

(** X24: the lines of a file are handled one after the other: for two
    texts joined by a line end, LF or CR, the requests are those of the
    first text followed by those of the second, and [main] prints what it
    prints for the first followed by what it prints for the second. *)
Theorem main_line_by_line a c b :
  is_newline c = true ->
  request_lines (a ++ String c b) = (request_lines a ++ request_lines b)%list /\
  main (FileText (a ++ String c b))
  = (((main (FileText a)).1 ++ (main (FileText b)).1)%list, None).
Proof.
  intros Hc.
  assert (request_lines (a ++ String c b)
          = (request_lines a ++ request_lines b)%list) as Hlines.
  { unfold request_lines.
    rewrite (split_lines_app _ _ _ Hc), List.map_app, List.filter_app.
    reflexivity. }
  split; [exact Hlines|].
  cbn [main]. rewrite !process_outputs, Hlines, List.map_app, concat_app. reflexivity.
Qed.

Lemma main_line_by_line_witness :
  is_newline (ascii_of_nat 10) = true /\
  request_lines ("Order 3 laptops" ++ String (ascii_of_nat 10) " buy 1 desk ")
  = ["Order 3 laptops"; "buy 1 desk"].
Proof.
  split; [reflexivity|].
  rewrite (proj1 (main_line_by_line
                    "Order 3 laptops" (ascii_of_nat 10) " buy 1 desk " eq_refl)).
  reflexivity.
Defined.

End DriverFacts.

(** ** The nodes and the objects they are given *)

Section NodeObjects.
Import Store.

Lemma new_dict_alloc d : returns_new_dict (alloc (ODict d)).
Proof.
  intros h l [= <-]. split; [reflexivity|].
  exists d. apply lookup_alloc.
Qed.

Lemma new_dict_raise e : returns_new_dict (raise e).
Proof. intros h l H. discriminate H. Qed.

Lemma new_dict_bind {A} (m : M A) (f : A -> M loc) :
  grows m -> (forall a, returns_new_dict (f a)) -> returns_new_dict (m ≫= f).
Proof.
  intros Hm Hf h l. rewrite bind_run. specialize (Hm h).
  destruct (m h) as [[a|e] h']; cbn [snd] in Hm; [|discriminate].
  intros Hl. destruct (Hf a h' l Hl) as [Hlen Hd]. split; [|exact Hd].
  apply prefix_length in Hm. lia.
Qed.

Lemma new_dict_intake_node state : returns_new_dict (intake_node state).
Proof.
  unfold intake_node.
  apply new_dict_bind; [apply grows_load_dict|]. intros d.
  apply new_dict_bind; [apply grows_getitem|]. intros request.
  apply new_dict_bind; [apply grows_re_subject|]. intros text.
  apply new_dict_bind; [apply grows_logs_plus|]. intros logs.
  apply new_dict_alloc.
Qed.

Lemma new_dict_supplier_node catalog state :
  returns_new_dict (supplier_node catalog state).
Proof.
  unfold supplier_node.
  apply new_dict_bind; [apply grows_load_dict|]. intros d.
  apply new_dict_bind; [apply grows_str_receiver|]. intros item.
  apply new_dict_bind; [apply grows_logs_plus|]. intros logs.
  apply new_dict_alloc.
Qed.

Lemma new_dict_approval_node threshold state :
  returns_new_dict (approval_node threshold state).
Proof.
  unfold approval_node.
  apply new_dict_bind; [apply grows_load_dict|]. intros d.
  apply new_dict_bind; [apply grows_py_int|]. intros quantity.
  apply new_dict_bind; [apply grows_logs_plus|]. intros logs.
  apply new_dict_alloc.
Qed.

(** X25: a node never changes the objects it is given and never returns
    one of them: whatever the store, each of the three nodes leaves every
    existing dict and list as it was, also when it raises, and the dict it
    returns is a new object. *)
Theorem node_builds_new_dict (f : stage) catalog threshold state h :
  f = intake_node \/ f = supplier_node catalog \/ f = approval_node threshold ->
  (forall l o, h !! l = Some o -> (f state h).2 !! l = Some o) /\
  forall l, (f state h).1 = Ok l ->
            h !! l = None /\ exists d, (f state h).2 !! l = Some (ODict d).
Proof.
  intros Hf.
  assert (grows (f state) /\ returns_new_dict (f state)) as [Hgrows Hnew].
  { destruct Hf as [-> | [-> | ->]]; split;
      auto using grows_intake_node, grows_supplier_node, grows_approval_node,
        new_dict_intake_node, new_dict_supplier_node, new_dict_approval_node. }
  split.
  - intros l o Hl. eapply prefix_lookup_Some; [exact Hl | apply Hgrows].
  - intros l Hl. destruct (Hnew h l Hl) as [Hlen Hd]. split; [|exact Hd].
    apply lookup_ge_None. exact Hlen.
Qed.

Lemma node_builds_new_dict_witness :
  (intake_node = intake_node
   \/ intake_node = supplier_node Workflow.item_to_supplier
   \/ intake_node = approval_node 5) /\
  (intake_node 1%nat caller_store).1 = Ok 5%nat /\
  caller_store !! 5%nat = None /\
  (intake_node 1%nat caller_store).2 !! 1%nat = caller_store !! 1%nat.
Proof.
  assert (intake_node = intake_node
          \/ intake_node = supplier_node Workflow.item_to_supplier
          \/ intake_node = approval_node 5) as Hf by (left; reflexivity).
  assert ((intake_node 1%nat caller_store).1 = Ok 5%nat) as Hrun
    by (vm_compute; reflexivity).
  destruct (node_builds_new_dict intake_node Workflow.item_to_supplier 5
              1%nat caller_store Hf) as [Hframe Hnew].
  split; [exact Hf|]. split; [exact Hrun|].
  split; [exact (proj1 (Hnew _ Hrun))|].
  apply Hframe. reflexivity.
Defined.

End NodeObjects.
